(** * Frontline Installer App: the diagnostic evaluation logic of [src/app.tsx]

    A shallow embedding of the status computations, the two derived-value
    helpers, the overview aggregation and the rulebook lookup of
    [src/app.tsx], with the properties the specification states about them.

    Conventions of the embedding:
    - a TypeScript [number] is [Js.number]: NaN, the two infinities, or a
      finite value given by a rational.  Every finite double is a rational
      and IEEE comparison of doubles is comparison of their values, so the
      comparison operators below are exact.  The sign of zero is not
      represented; no modelled expression observes it;
    - a string-literal union type is an inductive type with decidable
      equality; [T | null] is [option T];
    - arrays are lists; [some], [filter], [slice(0, n)], [map] and [find]
      are [existsb], [filter], [take n], [fmap] and [List.find]. *)

From Stdlib Require Import ZArith QArith Qround Lia Lqa String Ascii DecimalString.
From stdpp Require Import base decidable option list strings.

Local Open Scope string_scope.
Local Open Scope list_scope.

(** ** JavaScript numbers *)

(** Arithmetic on finite values is exact rational arithmetic.  The source
    does arithmetic at two places only, and at both the double result is
    rounded by [Math.round] to the same integer as the exact result:
    [(freqMHz - 2407) / 5] and [(freqMHz - 5000) / 5] on an in-band
    frequency (the subtraction is exact on doubles of that size, and the
    quotient is further from every tie [n + 1/2] than the rounding error of
    the division), and [clamped / 20] on an integer in [0, 100] (a tie is
    hit only at the exactly representable quotients). *)

Module Js.

Inductive number : Type :=
  | NaN
  | PosInf
  | NegInf
  | Finite (q : Q).

Definition of_Z (z : Z) : number := Finite (inject_Z z).

(** [x <= y]; false as soon as one side is NaN. *)
Definition le (x y : number) : bool :=
  match x, y with
  | NaN, _ | _, NaN => false
  | NegInf, _ => true
  | _, PosInf => true
  | Finite a, Finite b => Qle_bool a b
  | _, _ => false
  end.

(** [x < y]; false as soon as one side is NaN. *)
Definition lt (x y : number) : bool :=
  match x, y with
  | NaN, _ | _, NaN => false
  | NegInf, NegInf => false
  | NegInf, _ => true
  | PosInf, _ => false
  | _, PosInf => true
  | Finite a, Finite b => negb (Qle_bool b a)
  | _, _ => false
  end.

(** [x >= y] and [x > y] are the same tests with the operands swapped. *)
Definition ge (x y : number) : bool := le y x.
Definition gt (x y : number) : bool := lt y x.

(** [x === y] on numbers: NaN equals nothing, not even itself. *)
Definition strict_eq (x y : number) : bool :=
  match x, y with
  | PosInf, PosInf | NegInf, NegInf => true
  | Finite a, Finite b => Qeq_bool a b
  | _, _ => false
  end.

(** [Number.isFinite]. *)
Definition isFinite (x : number) : bool :=
  match x with Finite _ => true | _ => false end.

(** Truthiness of a number: [0] and NaN are falsy. *)
Definition truthy (x : number) : bool :=
  match x with
  | NaN => false
  | Finite q => negb (Qeq_bool q 0)
  | _ => true
  end.

(** [x - y]. *)
Definition sub (x y : number) : number :=
  match x, y with
  | NaN, _ | _, NaN => NaN
  | PosInf, PosInf | NegInf, NegInf => NaN
  | PosInf, _ | _, NegInf => PosInf
  | NegInf, _ | _, PosInf => NegInf
  | Finite a, Finite b => Finite (a - b)
  end.

(** [x / c] for a positive integer literal [c]. *)
Definition div_pos (x : number) (c : positive) : number :=
  match x with
  | Finite a => Finite (a / inject_Z (Z.pos c))
  | other => other
  end.

(** The integral numbers, which is what [Math.round] returns. *)
Inductive integral : Type :=
  | INaN
  | IPosInf
  | INegInf
  | Int (z : Z).

Definition to_number (i : integral) : number :=
  match i with
  | INaN => NaN
  | IPosInf => PosInf
  | INegInf => NegInf
  | Int z => of_Z z
  end.

(** The nearest integer to a rational, a tie going towards plus infinity. *)
Definition round (q : Q) : Z := Qfloor (q + (1 # 2)).

(** [Math.round]. *)
Definition Math_round (x : number) : integral :=
  match x with
  | NaN => INaN
  | PosInf => IPosInf
  | NegInf => INegInf
  | Finite q => Int (round q)
  end.

(** [Math.max] and [Math.min] of two integral numbers. *)
Definition Math_max (x y : integral) : integral :=
  match x, y with
  | INaN, _ | _, INaN => INaN
  | IPosInf, _ | _, IPosInf => IPosInf
  | INegInf, o | o, INegInf => o
  | Int a, Int b => Int (Z.max a b)
  end.

Definition Math_min (x y : integral) : integral :=
  match x, y with
  | INaN, _ | _, INaN => INaN
  | INegInf, _ | _, INegInf => INegInf
  | IPosInf, o | o, IPosInf => o
  | Int a, Int b => Int (Z.min a b)
  end.

(** [x - y] on integral numbers. *)
Definition isub (x y : integral) : integral :=
  match x, y with
  | INaN, _ | _, INaN => INaN
  | IPosInf, IPosInf | INegInf, INegInf => INaN
  | IPosInf, _ | _, INegInf => IPosInf
  | INegInf, _ | _, IPosInf => INegInf
  | Int a, Int b => Int (a - b)
  end.

Definition isFinite_integral (i : integral) : bool :=
  match i with Int _ => true | _ => false end.

(** [String(n)] for an integral [n] (below the size at which JavaScript
    switches to the exponent notation). *)
Definition String_of_int (z : Z) : string := NilZero.string_of_int (Z.to_int z).

Definition String (i : integral) : string :=
  match i with
  | INaN => "NaN"
  | IPosInf => "Infinity"
  | INegInf => "-Infinity"
  | Int z => String_of_int z
  end.

Fixpoint repeat_nat (s : string) (n : nat) : string :=
  match n with
  | O => ""
  | S k => (s ++ repeat_nat s k)%string
  end.

(** [s.repeat(count)]: a negative or infinite count throws a RangeError
    ([None]); NaN counts as [0]. *)
Definition repeat (s : string) (count : integral) : option string :=
  match count with
  | INaN => Some ""
  | IPosInf | INegInf => None
  | Int z => if (z <? 0)%Z then None else Some (repeat_nat s (Z.to_nat z))
  end.

End Js.

Coercion Js.of_Z : Z >-> Js.number.

(** ** Statuses *)

(** [type DiagnosticStatus = "success" | "warning" | "error"]. *)
Inductive DiagnosticStatus : Type := success | warning | error.

#[global] Instance DiagnosticStatus_eq_dec : EqDecision DiagnosticStatus.
Proof. solve_decision. Defined.

(** ** Derived-value helpers *)

Definition wifiChannelFromFreqMHz (freqMHz : option Js.number) : option string :=
  match freqMHz with
  | None => None
  | Some freqMHz =>
    if negb (Js.truthy freqMHz) then None
    else if Js.ge freqMHz 2412%Z && Js.le freqMHz 2484%Z then
      let ch := Js.Math_round (Js.div_pos (Js.sub freqMHz 2407%Z) 5) in
      if Js.isFinite_integral ch then Some (Js.String ch) else None
    else if Js.ge freqMHz 5000%Z && Js.le freqMHz 5900%Z then
      let ch := Js.Math_round (Js.div_pos (Js.sub freqMHz 5000%Z) 5) in
      if Js.isFinite_integral ch then Some (Js.String ch) else None
    else None
  end.

Definition glyph_filled : string := "▮".
Definition glyph_empty : string := "▯".

(** [wifiStrengthGlyph]; [None] would be an exception thrown by [repeat]. *)
Definition wifiStrengthGlyph (pct : option Js.number) : option string :=
  match pct with
  | None => Some "▯▯▯▯▯"
  | Some pct =>
    if negb (Js.isFinite pct) then Some "▯▯▯▯▯"
    else
      let clamped := Js.Math_max (Js.Int 0) (Js.Math_min (Js.Int 100) (Js.Math_round pct)) in
      let filled :=
        Js.Math_max (Js.Int 0)
          (Js.Math_min (Js.Int 5) (Js.Math_round (Js.div_pos (Js.to_number clamped) 20))) in
      a ← Js.repeat glyph_filled filled;
      b ← Js.repeat glyph_empty (Js.isub (Js.Int 5) filled);
      Some (a ++ b)%string
  end.

(** ** Measurements *)

(** ["online" | "offline" | "unknown"]. *)
Inductive Reachability : Type := online | offline | unknown.

#[global] Instance Reachability_eq_dec : EqDecision Reachability.
Proof. solve_decision. Defined.

(** ["ready" | "offline" | "not configured"], the type of [satStatus]. *)
Inductive SatState : Type := sat_ready | sat_offline | sat_not_configured.

#[global] Instance SatState_eq_dec : EqDecision SatState.
Proof. solve_decision. Defined.

(** The values the status logic reads.  The source holds most of them as
    constants of a demo data set, to be replaced by parsed controller
    output; the last three come from the component state.  [demo] gives
    the constants of the source. *)
Module Snapshot.
Record t : Type := mk {
  voltage : Js.number;
  ethLinkDetected : string;
  ethInternet : string;
  ethRxErrors : Js.number;
  ethTxErrors : Js.number;
  wifiTechPowered : bool;
  wifiConnected : bool;
  wifiInternetReachability : Reachability;
  cellInternetReachability : Reachability;
  cellPacketLossPct : Js.number;
  cellStrength : Js.number;
  satStatus : SatState;
  manifoldPsi : Js.number;
  sourcePsi : Js.number;
  cloudReachable : bool;
  cloudPingMs : Js.number;
  firmwareSupported : bool;
  firmwareUpdateAvailable : bool;
  satEnabled : bool;
  matterWifiProvisioned : bool;
  matterProvisionedSsid : option string
}.
End Snapshot.

(** ** Per-subsystem status *)

(** [powerStatus], as a function of the measured [voltage]. *)
Definition powerStatus (voltage : Js.number) : DiagnosticStatus :=
  if Js.ge voltage 12%Z && Js.le voltage 15%Z then success
  else if Js.ge voltage 11%Z && Js.lt voltage 12%Z then warning
  else if Js.gt voltage 15%Z && Js.le voltage 16%Z then warning
  else error.

(** The doubles that the literals [10.99], [16.01] and [13.4] denote. *)
Definition double_10_99 : Js.number := Js.Finite (6186819988100219 # 562949953421312).
Definition double_16_01 : Js.number := Js.Finite (4506414377137603 # 281474976710656).
Definition double_13_4 : Js.number := Js.Finite (7543529375845581 # 562949953421312).

Definition manifoldStatus (manifoldPsi : Js.number) : DiagnosticStatus :=
  if Js.ge manifoldPsi 30%Z && Js.le manifoldPsi 80%Z then success
  else if Js.ge manifoldPsi 20%Z && Js.lt manifoldPsi 30%Z then warning
  else error.

Definition sourceStatus (sourcePsi : Js.number) : DiagnosticStatus :=
  if Js.ge sourcePsi 30%Z && Js.le sourcePsi 80%Z then success
  else if Js.ge sourcePsi 20%Z && Js.lt sourcePsi 30%Z then warning
  else error.

Definition cloudStatus (cloudReachable : bool) (cloudPingMs : Js.number) : DiagnosticStatus :=
  if cloudReachable then (if Js.le cloudPingMs 250%Z then success else warning) else error.

Definition firmwareStatus (firmwareSupported firmwareUpdateAvailable : bool) : DiagnosticStatus :=
  if negb firmwareSupported then error
  else if firmwareUpdateAvailable then warning
  else success.

(** [Boolean(matterWifiProvisioned && matterProvisionedSsid)]: the SSID
    counts when it is neither null nor the empty string. *)
Definition wifiProvisioned (matterWifiProvisioned : bool)
    (matterProvisionedSsid : option string) : bool :=
  matterWifiProvisioned &&
  match matterProvisionedSsid with
  | Some ssid => negb (bool_decide (ssid = ""))
  | None => false
  end.

Definition wifiStatus (wifiProvisioned : bool) (wifiInternetReachability : Reachability)
    (wifiTechPowered wifiConnected : bool) : DiagnosticStatus :=
  if wifiProvisioned then
    (if bool_decide (wifiInternetReachability = online) then success else warning)
  else if negb wifiTechPowered then warning
  else if wifiConnected && bool_decide (wifiInternetReachability = online) then success
  else if wifiConnected && bool_decide (wifiInternetReachability ≠ online) then warning
  else error.

Definition wifiSummaryPrimary (wifiStatus : DiagnosticStatus) : string :=
  if bool_decide (wifiStatus = success) then "Connected"
  else if bool_decide (wifiStatus = warning) then "Disabled / Optional"
  else "Not Connected".

Definition ethStatus (ethLinkDetected ethInternet : string)
    (ethRxErrors ethTxErrors : Js.number) : DiagnosticStatus :=
  if bool_decide (ethLinkDetected = "Yes") && bool_decide (ethInternet = "online")
     && Js.strict_eq ethRxErrors 0%Z && Js.strict_eq ethTxErrors 0%Z
  then success
  else if bool_decide (ethLinkDetected ≠ "Yes") || bool_decide (ethInternet ≠ "online")
  then error
  else warning.

Definition cellStatus (cellInternetReachability : Reachability)
    (cellPacketLossPct cellStrength : Js.number) : DiagnosticStatus :=
  if bool_decide (cellInternetReachability = online) && Js.le cellPacketLossPct 2%Z
  then (if Js.ge cellStrength 40%Z then success else warning)
  else if bool_decide (cellInternetReachability ≠ online) then error
  else warning.

Definition satelliteStatus (satEnabled : bool) (satStatus : SatState) : DiagnosticStatus :=
  if satEnabled && bool_decide (satStatus = sat_ready) then success
  else if satEnabled && bool_decide (satStatus = sat_offline) then warning
  else warning.

(** ** Diagnostic cards *)

Inductive ActionKind : Type := goToNetwork | openCheatSheet.

Record Action : Type := { label : string; kind : ActionKind }.

Record Remediation : Type := { rem_title : string; actions : list Action }.

(** [DiagCardModel].  The fields [summarySecondary] and [details] are
    display strings formatted from the measurements; nothing modelled here
    reads them and they are left out. *)
Module DiagCardModel.
Record t : Type := mk {
  id : string;
  title : string;
  icon : string;
  status : DiagnosticStatus;
  summaryPrimary : string;
  remediation : option Remediation
}.
End DiagCardModel.

(** The nine cards, in the order in which the source lists them. *)
Definition diagCards (s : Snapshot.t) : list DiagCardModel.t :=
  let satEnabled := Snapshot.satEnabled s in
  let satStatus := Snapshot.satStatus s in
  let powerStatus := powerStatus (Snapshot.voltage s) in
  let manifoldStatus := manifoldStatus (Snapshot.manifoldPsi s) in
  let sourceStatus := sourceStatus (Snapshot.sourcePsi s) in
  let cloudStatus := cloudStatus (Snapshot.cloudReachable s) (Snapshot.cloudPingMs s) in
  let firmwareStatus :=
    firmwareStatus (Snapshot.firmwareSupported s) (Snapshot.firmwareUpdateAvailable s) in
  let wifiProvisioned :=
    wifiProvisioned (Snapshot.matterWifiProvisioned s) (Snapshot.matterProvisionedSsid s) in
  let wifiStatus :=
    wifiStatus wifiProvisioned (Snapshot.wifiInternetReachability s)
      (Snapshot.wifiTechPowered s) (Snapshot.wifiConnected s) in
  let wifiSummaryPrimary := wifiSummaryPrimary wifiStatus in
  let ethStatus :=
    ethStatus (Snapshot.ethLinkDetected s) (Snapshot.ethInternet s)
      (Snapshot.ethRxErrors s) (Snapshot.ethTxErrors s) in
  let cellStatus :=
    cellStatus (Snapshot.cellInternetReachability s) (Snapshot.cellPacketLossPct s)
      (Snapshot.cellStrength s) in
  let satelliteStatus := satelliteStatus satEnabled satStatus in
  [
    {| DiagCardModel.id := "ethernet";
       DiagCardModel.title := "Ethernet";
       DiagCardModel.icon := "🌐";
       DiagCardModel.status := ethStatus;
       DiagCardModel.summaryPrimary :=
         if bool_decide (ethStatus = success) then "Connected"
         else if bool_decide (ethStatus = warning) then "Degraded" else "Offline";
       DiagCardModel.remediation := None |};
    {| DiagCardModel.id := "wifi";
       DiagCardModel.title := "Wi‑Fi";
       DiagCardModel.icon := "📶";
       DiagCardModel.status := wifiStatus;
       DiagCardModel.summaryPrimary :=
         wifiSummaryPrimary;
       DiagCardModel.remediation := 
         if bool_decide (wifiStatus = error) then
           Some {| rem_title := "Action Required";
                   actions := [
                     {| label := "Configure Wi‑Fi Network"; kind := goToNetwork |};
                     {| label := "Wi‑Fi Rulebook"; kind := openCheatSheet |} ] |}
         else if bool_decide (wifiStatus = warning) then
           Some {| rem_title := "Optional";
                   actions := [
                     {| label := "Enable / Configure Wi‑Fi (optional backup)";
                        kind := goToNetwork |} ] |}
         else None |};
    {| DiagCardModel.id := "cellular";
       DiagCardModel.title := "Cellular";
       DiagCardModel.icon := "📱";
       DiagCardModel.status := cellStatus;
       DiagCardModel.summaryPrimary :=
         if bool_decide (cellStatus = success) then "Connected"
         else if bool_decide (cellStatus = warning) then "Degraded" else "Offline";
       DiagCardModel.remediation := None |};
    {| DiagCardModel.id := "satellite";
       DiagCardModel.title := "Satellite";
       DiagCardModel.icon := "🛰️";
       DiagCardModel.status := satelliteStatus;
       DiagCardModel.summaryPrimary :=
         if satEnabled
         then (if bool_decide (satStatus = sat_ready) then "Ready" else "Offline")
         else "Not Configured";
       DiagCardModel.remediation := None |};
    {| DiagCardModel.id := "power";
       DiagCardModel.title := "Power";
       DiagCardModel.icon := "🔋";
       DiagCardModel.status := powerStatus;
       DiagCardModel.summaryPrimary :=
         if bool_decide (powerStatus = success) then "Normal"
         else if bool_decide (powerStatus = warning) then "Marginal" else "Out of range";
       DiagCardModel.remediation := None |};
    {| DiagCardModel.id := "manifold";
       DiagCardModel.title := "Manifold Pressure";
       DiagCardModel.icon := "🧯";
       DiagCardModel.status := manifoldStatus;
       DiagCardModel.summaryPrimary :=
         if bool_decide (manifoldStatus = success) then "Normal"
         else if bool_decide (manifoldStatus = warning) then "Marginal" else "Low";
       DiagCardModel.remediation := None |};
    {| DiagCardModel.id := "source";
       DiagCardModel.title := "Source Pressure";
       DiagCardModel.icon := "🚰";
       DiagCardModel.status := sourceStatus;
       DiagCardModel.summaryPrimary :=
         if bool_decide (sourceStatus = success) then "Normal"
         else if bool_decide (sourceStatus = warning) then "Marginal" else "Low";
       DiagCardModel.remediation := None |};
    {| DiagCardModel.id := "cloud";
       DiagCardModel.title := "Cloud Sync";
       DiagCardModel.icon := "☁️";
       DiagCardModel.status := cloudStatus;
       DiagCardModel.summaryPrimary :=
         if bool_decide (cloudStatus = success) then "Synced"
         else if bool_decide (cloudStatus = warning) then "Delayed" else "Offline";
       DiagCardModel.remediation := None |};
    {| DiagCardModel.id := "firmware";
       DiagCardModel.title := "Firmware";
       DiagCardModel.icon := "🧩";
       DiagCardModel.status := firmwareStatus;
       DiagCardModel.summaryPrimary :=
         if bool_decide (firmwareStatus = success) then "Current"
         else if bool_decide (firmwareStatus = warning) then "Update available" else "Unsupported";
       DiagCardModel.remediation := None |}
  ].

(** The demo data set of the source; [satelliteBackup] is the component
    state from which the source derives [satEnabled] and [satStatus]. *)
Definition demo (satelliteBackup : bool) (matterWifiProvisioned : bool)
    (matterProvisionedSsid : option string) : Snapshot.t :=
  {| Snapshot.voltage := double_13_4;
     Snapshot.ethLinkDetected := "Yes";
     Snapshot.ethInternet := "online";
     Snapshot.ethRxErrors := 0%Z;
     Snapshot.ethTxErrors := 0%Z;
     Snapshot.wifiTechPowered := true;
     Snapshot.wifiConnected := true;
     Snapshot.wifiInternetReachability := online;
     Snapshot.cellInternetReachability := online;
     Snapshot.cellPacketLossPct := 0%Z;
     Snapshot.cellStrength := 60%Z;
     Snapshot.satStatus := if satelliteBackup then sat_offline else sat_not_configured;
     Snapshot.manifoldPsi := 45%Z;
     Snapshot.sourcePsi := 62%Z;
     Snapshot.cloudReachable := true;
     Snapshot.cloudPingMs := 42%Z;
     Snapshot.firmwareSupported := true;
     Snapshot.firmwareUpdateAvailable := true;
     Snapshot.satEnabled := satelliteBackup;
     Snapshot.matterWifiProvisioned := matterWifiProvisioned;
     Snapshot.matterProvisionedSsid := matterProvisionedSsid |}.

(** ** Overview *)

(** The "Overall Status" row of the Done step. *)
Definition doneOverallStatus (diagCards : list DiagCardModel.t) : string :=
  if existsb (λ d, bool_decide (DiagCardModel.status d = error)) diagCards
  then "Needs attention"
  else if existsb (λ d, bool_decide (DiagCardModel.status d = warning)) diagCards
  then "Good"
  else "Excellent".

(** [OverallStatusCard]: the values it computes and the lines it shows. *)
Definition hasError (diagCards : list DiagCardModel.t) : bool :=
  existsb (λ d, bool_decide (DiagCardModel.status d = error)) diagCards.

Definition hasWarning (diagCards : list DiagCardModel.t) : bool :=
  existsb (λ d, bool_decide (DiagCardModel.status d = warning)) diagCards.

Definition statusLabel (diagCards : list DiagCardModel.t) : string :=
  if hasError diagCards then "Needs Attention"
  else if hasWarning diagCards then "Good (with advisories)"
  else "Excellent".

Definition statusDot (diagCards : list DiagCardModel.t) : string :=
  if hasError diagCards then "bg-red-500"
  else if hasWarning diagCards then "bg-orange-500"
  else "bg-green-500".

Definition statusBg (diagCards : list DiagCardModel.t) : string :=
  if hasError diagCards then "bg-red-50"
  else if hasWarning diagCards then "bg-orange-50"
  else "bg-green-50".

Definition statusBorder (diagCards : list DiagCardModel.t) : string :=
  if hasError diagCards then "border-red-200"
  else if hasWarning diagCards then "border-orange-200"
  else "border-green-200".

(** The template string of an issue. *)
Definition issueText (d : DiagCardModel.t) : string :=
  (DiagCardModel.title d ++ ": " ++ DiagCardModel.summaryPrimary d)%string.

Definition topIssues (diagCards : list DiagCardModel.t) : list string :=
  issueText <$> take 3 (filter (λ d, DiagCardModel.status d ≠ success) diagCards).

(** The lines under the header of the card. *)
Definition issueLines (diagCards : list DiagCardModel.t) : list string :=
  let topIssues := topIssues diagCards in
  if bool_decide (length topIssues = 0) then ["• All diagnostics passed."]
  else (λ n, "• " ++ n)%string <$> topIssues.

(** ** Rulebook *)

Module RuleEntry.
Record t : Type := mk {
  id : string;
  title : string;
  intent : string;
  green : list string;
  yellow : list string;
  red : list string;
  recommendedActions : list string
}.
End RuleEntry.

Definition RULEBOOK : list RuleEntry.t := [
  {| RuleEntry.id := "ethernet";
     RuleEntry.title := "Ethernet";
     RuleEntry.intent := "Proves wired connectivity is stable enough for cloud sync and commissioning.";
     RuleEntry.green := [
       "Link detected = Yes (ethtool)";
       "Duplex = Full (ethtool)";
       "IPv4 address present (ifconfig)";
       "Internet reachable = Online (ethernet-check)";
       "Packet loss ≤ 2% (ethernet-check)"
     ];
     RuleEntry.yellow := [
       "Packet loss > 2% and ≤ 10%";
       "Speed lower than expected (e.g., 100 Mb/s when Gigabit is available)";
       "RX drops increasing (but errors remain 0)"
     ];
     RuleEntry.red := [
       "Link detected = No";
       "No IPv4 address";
       "Internet unreachable";
       "Packet loss > 10%";
       "RX/TX errors > 0";
       "Duplex mismatch or link flapping"
     ];
     RuleEntry.recommendedActions := [
       "Reseat/replace Ethernet cable with known-good cable";
       "Try a different router/switch port";
       "Re-run diagnostics";
       "If still failing: use Wi‑Fi/Cellular and flag controller/cable/router for follow-up"
     ] |};
  {| RuleEntry.id := "wifi";
     RuleEntry.title := "Wi‑Fi";
     RuleEntry.intent := "Verifies Wi‑Fi provisioning and link quality for primary or backup connectivity.";
     RuleEntry.green := [
       "Connected to SSID";
       "Internet reachable";
       "Strength ≥ 60/100"
     ];
     RuleEntry.yellow := [
       "Wi‑Fi disabled (optional)";
       "Strength 30–59/100";
       "High latency or intermittent loss"
     ];
     RuleEntry.red := [
       "Not connected (when expected)";
       "No internet reachability";
       "Technology disabled unexpectedly"
     ];
     RuleEntry.recommendedActions := [
       "Use Current Wi‑Fi via Matter (fast path)";
       "Provision Selected Wi‑Fi via Matter";
       "Move closer / choose stronger SSID";
       "Confirm passcode";
       "Use Ethernet/Cellular as fallback"
     ] |};
  {| RuleEntry.id := "cellular";
     RuleEntry.title := "Cellular";
     RuleEntry.intent := "Verifies cellular modem is registered and usable as backup or primary uplink.";
     RuleEntry.green := [
       "Internet reachable";
       "Packet loss ≤ 2%";
       "Signal ≥ 40/100"
     ];
     RuleEntry.yellow := [
       "Signal 20–39/100";
       "Latency high (still usable)";
       "Intermittent loss"
     ];
     RuleEntry.red := [
       "Internet unreachable";
       "No provider / no session";
       "Packet loss > 10%"
     ];
     RuleEntry.recommendedActions := [
       "Check antenna/placement";
       "Verify SIM active";
       "Reboot modem/controller";
       "Escalate to support if still no session"
     ] |};
  {| RuleEntry.id := "satellite";
     RuleEntry.title := "Satellite";
     RuleEntry.intent := "Confirms satellite backup is available when enabled.";
     RuleEntry.green := [
       "Enabled and ready";
       "Recent successful contact"
     ];
     RuleEntry.yellow := [
       "Enabled but not currently connected";
       "Provisioned but idle"
     ];
     RuleEntry.red := [
       "Enabled but offline / fault";
       "No modem detected"
     ];
     RuleEntry.recommendedActions := [
       "Confirm satellite backup enabled";
       "Check antenna placement";
       "Re-run satellite diagnostic";
       "Escalate if modem not detected"
     ] |};
  {| RuleEntry.id := "power";
     RuleEntry.title := "Power";
     RuleEntry.intent := "Ensures controller supply voltage is within safe operating range.";
     RuleEntry.green := ["12.0–15.0 V"];
     RuleEntry.yellow := [
       "11.0–11.9 V";
       "15.1–16.0 V"
     ];
     RuleEntry.red := [
       "< 11.0 V";
       "> 16.0 V"
     ];
     RuleEntry.recommendedActions := [
       "Check power supply and wiring";
       "Verify battery/solar configuration";
       "Measure with multimeter if readings look wrong"
     ] |};
  {| RuleEntry.id := "manifold";
     RuleEntry.title := "Manifold Pressure";
     RuleEntry.intent := "Indicates pressure on the distribution/manifold side.";
     RuleEntry.green := ["Pressure within expected operating range"];
     RuleEntry.yellow := [
       "Pressure marginal (near limits)";
       "Pressure unstable"
     ];
     RuleEntry.red := [
       "Pressure too low for operation";
       "Pressure too high / unsafe"
     ];
     RuleEntry.recommendedActions := [
       "Check pump/valves state";
       "Verify supply and filters";
       "Re-run pressure test"
     ] |};
  {| RuleEntry.id := "source";
     RuleEntry.title := "Source Pressure";
     RuleEntry.intent := "Indicates supply pressure available from the water source.";
     RuleEntry.green := ["Source pressure within expected range"];
     RuleEntry.yellow := [
       "Low but usable";
       "Fluctuating"
     ];
     RuleEntry.red := [
       "No pressure / very low";
       "Unstable / unreliable source"
     ];
     RuleEntry.recommendedActions := [
       "Check supply valve/source";
       "Confirm tank level / municipal pressure";
       "Inspect intake/strainer"
     ] |};
  {| RuleEntry.id := "cloud";
     RuleEntry.title := "Cloud Sync";
     RuleEntry.intent := "Confirms controller can reach Frontline cloud services reliably.";
     RuleEntry.green := [
       "Ping succeeds";
       "Recent sync timestamp"
     ];
     RuleEntry.yellow := [
       "Slow ping";
       "Delayed sync"
     ];
     RuleEntry.red := [
       "Cannot reach endpoint";
       "No sync"
     ];
     RuleEntry.recommendedActions := [
       "Fix underlying network (Ethernet/Wi‑Fi/Cellular)";
       "Re-run diagnostics";
       "Confirm endpoint configured"
     ] |};
  {| RuleEntry.id := "firmware";
     RuleEntry.title := "Firmware";
     RuleEntry.intent := "Shows installed firmware version and whether an update is recommended.";
     RuleEntry.green := ["Version current / supported"];
     RuleEntry.yellow := ["Update available (recommended)"];
     RuleEntry.red := ["Unsupported / blocked version"];
     RuleEntry.recommendedActions := [
       "Schedule update";
       "Confirm update window and connectivity";
       "Escalate if version is blocked"
     ] |}
].

(** [RULEBOOK.find((r) => r.id === id)]; [None] is [undefined]. *)
Definition RULEBOOK_find (id : string) : option RuleEntry.t :=
  List.find (λ r, bool_decide (RuleEntry.id r = id)) RULEBOOK.

(** [RulebookModal]: the initial [selectedId] and the entry it shows,
    [RULEBOOK.find(...) ?? RULEBOOK[0]]. *)
Definition initialSelectedId (focus : option string) : string :=
  default "ethernet" focus.

Definition selected (selectedId : string) : option RuleEntry.t :=
  match RULEBOOK_find selectedId with
  | Some r => Some r
  | None => RULEBOOK !! 0%nat
  end.

(** The ids that the self-test of the source requires of the rulebook. *)
Definition required : list string :=
  ["ethernet"; "wifi"; "cellular"; "satellite"; "power"; "manifold"; "source";
   "cloud"; "firmware"].

(** ** Comparing labels up to letter case *)

Definition lower_ascii (c : ascii) : ascii :=
  let n := nat_of_ascii c in
  if (65 <=? n)%nat && (n <=? 90)%nat then ascii_of_nat (n + 32) else c.

Fixpoint lower (s : string) : string :=
  match s with
  | EmptyString => EmptyString
  | String c r => String (lower_ascii c) (lower r)
  end.

(** ** Reference definitions for the helpers *)

(** A glyph of five segments of which the first [filled] are filled. *)
Definition five_segments (filled : nat) : string :=
  (Js.repeat_nat glyph_filled filled ++ Js.repeat_nat glyph_empty (5 - filled))%string.

(** A percentage clamped to [0, 100]. *)
Definition clamp_pct (q : Q) : Q :=
  if Qle_bool q 0 then 0%Q else if Qle_bool 100 q then 100%Q else q.

(** ** Sample snapshots *)

(** A snapshot in which everything that is not a parameter is healthy. *)
Definition scenario (voltage : Js.number) (wifiTechPowered : bool)
    (cellInternetReachability : Reachability) (satEnabled : bool) (satStatus : SatState)
    (firmwareSupported firmwareUpdateAvailable : bool) : Snapshot.t :=
  {| Snapshot.voltage := voltage;
     Snapshot.ethLinkDetected := "Yes";
     Snapshot.ethInternet := "online";
     Snapshot.ethRxErrors := 0%Z;
     Snapshot.ethTxErrors := 0%Z;
     Snapshot.wifiTechPowered := wifiTechPowered;
     Snapshot.wifiConnected := true;
     Snapshot.wifiInternetReachability := online;
     Snapshot.cellInternetReachability := cellInternetReachability;
     Snapshot.cellPacketLossPct := 0%Z;
     Snapshot.cellStrength := 60%Z;
     Snapshot.satStatus := satStatus;
     Snapshot.manifoldPsi := 45%Z;
     Snapshot.sourcePsi := 62%Z;
     Snapshot.cloudReachable := true;
     Snapshot.cloudPingMs := 42%Z;
     Snapshot.firmwareSupported := firmwareSupported;
     Snapshot.firmwareUpdateAvailable := firmwareUpdateAvailable;
     Snapshot.satEnabled := satEnabled;
     Snapshot.matterWifiProvisioned := false;
     Snapshot.matterProvisionedSsid := None |}.

(** Nine successes. *)
Definition all_good : Snapshot.t :=
  scenario double_13_4 true online true sat_ready true false.

(** One error (power) and one warning (firmware). *)
Definition one_error_one_warning : Snapshot.t :=
  scenario 10%Z true online true sat_ready true true.

(** Two warnings, then an error, then a warning, then an error. *)
Definition five_issues : Snapshot.t :=
  scenario 10%Z false online false sat_not_configured false false.

(** Membership of a status in a list of cards. *)
Definition any_status (st : DiagnosticStatus) (diagCards : list DiagCardModel.t) : Prop :=
  exists d, d ∈ diagCards /\ DiagCardModel.status d = st.

(** ** Remaining status helpers of the cards *)

(** [wifiStrengthText]: the label of [wifi-check] when there is one,
    otherwise a word chosen from the percentage. *)
Definition wifiStrengthText (wifiStrengthLabel : option string)
    (wifiStrengthPercent : option Js.number) : option string :=
  match wifiStrengthLabel with
  | Some l => Some l
  | None =>
    match wifiStrengthPercent with
    | Some p =>
      Some (if Js.ge p 75%Z then "strong"
            else if Js.ge p 50%Z then "good"
            else if Js.ge p 25%Z then "weak"
            else "poor")
    | None => None
    end
  end.

(** [themeForStatus]. *)
Module Theme.
Record t : Type := mk {
  border : string;
  dot : string;
  title : string;
  statusText : string;
  bg : string
}.
End Theme.

Definition themeForStatus (status : DiagnosticStatus) : Theme.t :=
  if bool_decide (status = success) then
    {| Theme.border := "border-green-500"; Theme.dot := "bg-green-500";
       Theme.title := "text-slate-900"; Theme.statusText := "text-green-700";
       Theme.bg := "bg-green-50/50" |}
  else if bool_decide (status = warning) then
    {| Theme.border := "border-orange-500"; Theme.dot := "bg-orange-500";
       Theme.title := "text-slate-900"; Theme.statusText := "text-orange-700";
       Theme.bg := "bg-orange-50/50" |}
  else
    {| Theme.border := "border-red-500"; Theme.dot := "bg-red-500";
       Theme.title := "text-slate-900"; Theme.statusText := "text-red-700";
       Theme.bg := "bg-red-50/50" |}.

(** [SignalBars]: for each of the five bars, whether it is lit and its
    height. *)
Definition SignalBars (strength : Z) : list (bool * Z) :=
  (λ b, ((b <=? strength)%Z, (6 + b * 4)%Z)) <$> [1; 2; 3; 4; 5]%Z.

(** ** Component state of [FrontlineInstallerApp] *)

Definition STEPS : list string :=
  ["QR Scan"; "Station"; "System"; "Network"; "Tests"; "Done"].

Inductive Security : Type := WPA2 | WPA3 | OpenNetwork.

Module WifiNetwork.
Record t : Type := mk { ssid : string; strength : Z; security : Security }.
End WifiNetwork.

(** ["Roof" | "Eave" | "Roof + Eave" | "Perimeter"]. *)
Inductive ZoneType : Type := Roof | Eave | Roof_Eave | Perimeter.

Module Zone.
Record t : Type := mk { id : Z; type : ZoneType; name : string }.
End Zone.

(** ["Yes" | "No"]. *)
Inductive YesNo : Type := Yes | No.

#[global] Instance YesNo_eq_dec : EqDecision YesNo.
Proof. solve_decision. Defined.

#[global] Instance ActionKind_eq_dec : EqDecision ActionKind.
Proof. solve_decision. Defined.

Definition wifiNetworks : list WifiNetwork.t := [
  {| WifiNetwork.ssid := "Southern Cousin"; WifiNetwork.strength := 5;
     WifiNetwork.security := WPA2 |};
  {| WifiNetwork.ssid := "Robust Debt"; WifiNetwork.strength := 4;
     WifiNetwork.security := WPA2 |};
  {| WifiNetwork.ssid := "Deranged Love"; WifiNetwork.strength := 2;
     WifiNetwork.security := WPA2 |}
].

Definition pairingDeviceSsid : string := "Southern Cousin".

(** The values of the [useState] hooks of the component. *)
Module AppState.
Record t : Type := mk {
  stepIndex : Z;
  customerName : string;
  installLocation : string;
  installDate : string;
  serial : option string;
  matterPaired : bool;
  matterAttested : bool;
  matterWifiProvisioned : bool;
  matterProvisionedSsid : option string;
  primaryInterface : string;
  selectedWifi : string;
  wifiPassword : string;
  usePairingDeviceNetwork : bool;
  cellularBackup : YesNo;
  satelliteBackup : YesNo;
  hhcType : string;
  foamInstalled : YesNo;
  drainCycle : YesNo;
  zones : list Zone.t;
  openDiagId : option string;
  rulebookOpen : bool;
  rulebookFocus : option string
}.

(** The state setters of the [useState] hooks. *)
Definition setStepIndex (v : Z) (s : t) : t :=
  {| stepIndex := v; customerName := customerName s; installLocation := installLocation s;
     installDate := installDate s; serial := serial s; matterPaired := matterPaired s;
     matterAttested := matterAttested s; matterWifiProvisioned := matterWifiProvisioned s;
     matterProvisionedSsid := matterProvisionedSsid s; primaryInterface := primaryInterface s;
     selectedWifi := selectedWifi s; wifiPassword := wifiPassword s;
     usePairingDeviceNetwork := usePairingDeviceNetwork s; cellularBackup := cellularBackup s;
     satelliteBackup := satelliteBackup s; hhcType := hhcType s;
     foamInstalled := foamInstalled s; drainCycle := drainCycle s; zones := zones s;
     openDiagId := openDiagId s; rulebookOpen := rulebookOpen s; rulebookFocus := rulebookFocus s |}.

Definition setCustomerName (v : string) (s : t) : t :=
  {| stepIndex := stepIndex s; customerName := v; installLocation := installLocation s;
     installDate := installDate s; serial := serial s; matterPaired := matterPaired s;
     matterAttested := matterAttested s; matterWifiProvisioned := matterWifiProvisioned s;
     matterProvisionedSsid := matterProvisionedSsid s; primaryInterface := primaryInterface s;
     selectedWifi := selectedWifi s; wifiPassword := wifiPassword s;
     usePairingDeviceNetwork := usePairingDeviceNetwork s; cellularBackup := cellularBackup s;
     satelliteBackup := satelliteBackup s; hhcType := hhcType s;
     foamInstalled := foamInstalled s; drainCycle := drainCycle s; zones := zones s;
     openDiagId := openDiagId s; rulebookOpen := rulebookOpen s; rulebookFocus := rulebookFocus s |}.

Definition setInstallLocation (v : string) (s : t) : t :=
  {| stepIndex := stepIndex s; customerName := customerName s; installLocation := v;
     installDate := installDate s; serial := serial s; matterPaired := matterPaired s;
     matterAttested := matterAttested s; matterWifiProvisioned := matterWifiProvisioned s;
     matterProvisionedSsid := matterProvisionedSsid s; primaryInterface := primaryInterface s;
     selectedWifi := selectedWifi s; wifiPassword := wifiPassword s;
     usePairingDeviceNetwork := usePairingDeviceNetwork s; cellularBackup := cellularBackup s;
     satelliteBackup := satelliteBackup s; hhcType := hhcType s;
     foamInstalled := foamInstalled s; drainCycle := drainCycle s; zones := zones s;
     openDiagId := openDiagId s; rulebookOpen := rulebookOpen s; rulebookFocus := rulebookFocus s |}.

Definition setInstallDate (v : string) (s : t) : t :=
  {| stepIndex := stepIndex s; customerName := customerName s;
     installLocation := installLocation s; installDate := v; serial := serial s;
     matterPaired := matterPaired s; matterAttested := matterAttested s;
     matterWifiProvisioned := matterWifiProvisioned s;
     matterProvisionedSsid := matterProvisionedSsid s; primaryInterface := primaryInterface s;
     selectedWifi := selectedWifi s; wifiPassword := wifiPassword s;
     usePairingDeviceNetwork := usePairingDeviceNetwork s; cellularBackup := cellularBackup s;
     satelliteBackup := satelliteBackup s; hhcType := hhcType s;
     foamInstalled := foamInstalled s; drainCycle := drainCycle s; zones := zones s;
     openDiagId := openDiagId s; rulebookOpen := rulebookOpen s; rulebookFocus := rulebookFocus s |}.

Definition setSerial (v : option string) (s : t) : t :=
  {| stepIndex := stepIndex s; customerName := customerName s;
     installLocation := installLocation s; installDate := installDate s; serial := v;
     matterPaired := matterPaired s; matterAttested := matterAttested s;
     matterWifiProvisioned := matterWifiProvisioned s;
     matterProvisionedSsid := matterProvisionedSsid s; primaryInterface := primaryInterface s;
     selectedWifi := selectedWifi s; wifiPassword := wifiPassword s;
     usePairingDeviceNetwork := usePairingDeviceNetwork s; cellularBackup := cellularBackup s;
     satelliteBackup := satelliteBackup s; hhcType := hhcType s;
     foamInstalled := foamInstalled s; drainCycle := drainCycle s; zones := zones s;
     openDiagId := openDiagId s; rulebookOpen := rulebookOpen s; rulebookFocus := rulebookFocus s |}.

Definition setMatterPaired (v : bool) (s : t) : t :=
  {| stepIndex := stepIndex s; customerName := customerName s;
     installLocation := installLocation s; installDate := installDate s; serial := serial s;
     matterPaired := v; matterAttested := matterAttested s;
     matterWifiProvisioned := matterWifiProvisioned s;
     matterProvisionedSsid := matterProvisionedSsid s; primaryInterface := primaryInterface s;
     selectedWifi := selectedWifi s; wifiPassword := wifiPassword s;
     usePairingDeviceNetwork := usePairingDeviceNetwork s; cellularBackup := cellularBackup s;
     satelliteBackup := satelliteBackup s; hhcType := hhcType s;
     foamInstalled := foamInstalled s; drainCycle := drainCycle s; zones := zones s;
     openDiagId := openDiagId s; rulebookOpen := rulebookOpen s; rulebookFocus := rulebookFocus s |}.

Definition setMatterAttested (v : bool) (s : t) : t :=
  {| stepIndex := stepIndex s; customerName := customerName s;
     installLocation := installLocation s; installDate := installDate s; serial := serial s;
     matterPaired := matterPaired s; matterAttested := v;
     matterWifiProvisioned := matterWifiProvisioned s;
     matterProvisionedSsid := matterProvisionedSsid s; primaryInterface := primaryInterface s;
     selectedWifi := selectedWifi s; wifiPassword := wifiPassword s;
     usePairingDeviceNetwork := usePairingDeviceNetwork s; cellularBackup := cellularBackup s;
     satelliteBackup := satelliteBackup s; hhcType := hhcType s;
     foamInstalled := foamInstalled s; drainCycle := drainCycle s; zones := zones s;
     openDiagId := openDiagId s; rulebookOpen := rulebookOpen s; rulebookFocus := rulebookFocus s |}.

Definition setMatterWifiProvisioned (v : bool) (s : t) : t :=
  {| stepIndex := stepIndex s; customerName := customerName s;
     installLocation := installLocation s; installDate := installDate s; serial := serial s;
     matterPaired := matterPaired s; matterAttested := matterAttested s;
     matterWifiProvisioned := v; matterProvisionedSsid := matterProvisionedSsid s;
     primaryInterface := primaryInterface s; selectedWifi := selectedWifi s;
     wifiPassword := wifiPassword s; usePairingDeviceNetwork := usePairingDeviceNetwork s;
     cellularBackup := cellularBackup s; satelliteBackup := satelliteBackup s;
     hhcType := hhcType s; foamInstalled := foamInstalled s; drainCycle := drainCycle s;
     zones := zones s; openDiagId := openDiagId s; rulebookOpen := rulebookOpen s;
     rulebookFocus := rulebookFocus s |}.

Definition setMatterProvisionedSsid (v : option string) (s : t) : t :=
  {| stepIndex := stepIndex s; customerName := customerName s;
     installLocation := installLocation s; installDate := installDate s; serial := serial s;
     matterPaired := matterPaired s; matterAttested := matterAttested s;
     matterWifiProvisioned := matterWifiProvisioned s; matterProvisionedSsid := v;
     primaryInterface := primaryInterface s; selectedWifi := selectedWifi s;
     wifiPassword := wifiPassword s; usePairingDeviceNetwork := usePairingDeviceNetwork s;
     cellularBackup := cellularBackup s; satelliteBackup := satelliteBackup s;
     hhcType := hhcType s; foamInstalled := foamInstalled s; drainCycle := drainCycle s;
     zones := zones s; openDiagId := openDiagId s; rulebookOpen := rulebookOpen s;
     rulebookFocus := rulebookFocus s |}.

Definition setPrimaryInterface (v : string) (s : t) : t :=
  {| stepIndex := stepIndex s; customerName := customerName s;
     installLocation := installLocation s; installDate := installDate s; serial := serial s;
     matterPaired := matterPaired s; matterAttested := matterAttested s;
     matterWifiProvisioned := matterWifiProvisioned s;
     matterProvisionedSsid := matterProvisionedSsid s; primaryInterface := v;
     selectedWifi := selectedWifi s; wifiPassword := wifiPassword s;
     usePairingDeviceNetwork := usePairingDeviceNetwork s; cellularBackup := cellularBackup s;
     satelliteBackup := satelliteBackup s; hhcType := hhcType s;
     foamInstalled := foamInstalled s; drainCycle := drainCycle s; zones := zones s;
     openDiagId := openDiagId s; rulebookOpen := rulebookOpen s; rulebookFocus := rulebookFocus s |}.

Definition setSelectedWifi (v : string) (s : t) : t :=
  {| stepIndex := stepIndex s; customerName := customerName s;
     installLocation := installLocation s; installDate := installDate s; serial := serial s;
     matterPaired := matterPaired s; matterAttested := matterAttested s;
     matterWifiProvisioned := matterWifiProvisioned s;
     matterProvisionedSsid := matterProvisionedSsid s; primaryInterface := primaryInterface s;
     selectedWifi := v; wifiPassword := wifiPassword s;
     usePairingDeviceNetwork := usePairingDeviceNetwork s; cellularBackup := cellularBackup s;
     satelliteBackup := satelliteBackup s; hhcType := hhcType s;
     foamInstalled := foamInstalled s; drainCycle := drainCycle s; zones := zones s;
     openDiagId := openDiagId s; rulebookOpen := rulebookOpen s; rulebookFocus := rulebookFocus s |}.

Definition setWifiPassword (v : string) (s : t) : t :=
  {| stepIndex := stepIndex s; customerName := customerName s;
     installLocation := installLocation s; installDate := installDate s; serial := serial s;
     matterPaired := matterPaired s; matterAttested := matterAttested s;
     matterWifiProvisioned := matterWifiProvisioned s;
     matterProvisionedSsid := matterProvisionedSsid s; primaryInterface := primaryInterface s;
     selectedWifi := selectedWifi s; wifiPassword := v;
     usePairingDeviceNetwork := usePairingDeviceNetwork s; cellularBackup := cellularBackup s;
     satelliteBackup := satelliteBackup s; hhcType := hhcType s;
     foamInstalled := foamInstalled s; drainCycle := drainCycle s; zones := zones s;
     openDiagId := openDiagId s; rulebookOpen := rulebookOpen s; rulebookFocus := rulebookFocus s |}.

Definition setUsePairingDeviceNetwork (v : bool) (s : t) : t :=
  {| stepIndex := stepIndex s; customerName := customerName s;
     installLocation := installLocation s; installDate := installDate s; serial := serial s;
     matterPaired := matterPaired s; matterAttested := matterAttested s;
     matterWifiProvisioned := matterWifiProvisioned s;
     matterProvisionedSsid := matterProvisionedSsid s; primaryInterface := primaryInterface s;
     selectedWifi := selectedWifi s; wifiPassword := wifiPassword s;
     usePairingDeviceNetwork := v; cellularBackup := cellularBackup s;
     satelliteBackup := satelliteBackup s; hhcType := hhcType s;
     foamInstalled := foamInstalled s; drainCycle := drainCycle s; zones := zones s;
     openDiagId := openDiagId s; rulebookOpen := rulebookOpen s; rulebookFocus := rulebookFocus s |}.

Definition setCellularBackup (v : YesNo) (s : t) : t :=
  {| stepIndex := stepIndex s; customerName := customerName s;
     installLocation := installLocation s; installDate := installDate s; serial := serial s;
     matterPaired := matterPaired s; matterAttested := matterAttested s;
     matterWifiProvisioned := matterWifiProvisioned s;
     matterProvisionedSsid := matterProvisionedSsid s; primaryInterface := primaryInterface s;
     selectedWifi := selectedWifi s; wifiPassword := wifiPassword s;
     usePairingDeviceNetwork := usePairingDeviceNetwork s; cellularBackup := v;
     satelliteBackup := satelliteBackup s; hhcType := hhcType s;
     foamInstalled := foamInstalled s; drainCycle := drainCycle s; zones := zones s;
     openDiagId := openDiagId s; rulebookOpen := rulebookOpen s; rulebookFocus := rulebookFocus s |}.

Definition setSatelliteBackup (v : YesNo) (s : t) : t :=
  {| stepIndex := stepIndex s; customerName := customerName s;
     installLocation := installLocation s; installDate := installDate s; serial := serial s;
     matterPaired := matterPaired s; matterAttested := matterAttested s;
     matterWifiProvisioned := matterWifiProvisioned s;
     matterProvisionedSsid := matterProvisionedSsid s; primaryInterface := primaryInterface s;
     selectedWifi := selectedWifi s; wifiPassword := wifiPassword s;
     usePairingDeviceNetwork := usePairingDeviceNetwork s; cellularBackup := cellularBackup s;
     satelliteBackup := v; hhcType := hhcType s; foamInstalled := foamInstalled s;
     drainCycle := drainCycle s; zones := zones s; openDiagId := openDiagId s;
     rulebookOpen := rulebookOpen s; rulebookFocus := rulebookFocus s |}.

Definition setHhcType (v : string) (s : t) : t :=
  {| stepIndex := stepIndex s; customerName := customerName s;
     installLocation := installLocation s; installDate := installDate s; serial := serial s;
     matterPaired := matterPaired s; matterAttested := matterAttested s;
     matterWifiProvisioned := matterWifiProvisioned s;
     matterProvisionedSsid := matterProvisionedSsid s; primaryInterface := primaryInterface s;
     selectedWifi := selectedWifi s; wifiPassword := wifiPassword s;
     usePairingDeviceNetwork := usePairingDeviceNetwork s; cellularBackup := cellularBackup s;
     satelliteBackup := satelliteBackup s; hhcType := v; foamInstalled := foamInstalled s;
     drainCycle := drainCycle s; zones := zones s; openDiagId := openDiagId s;
     rulebookOpen := rulebookOpen s; rulebookFocus := rulebookFocus s |}.

Definition setFoamInstalled (v : YesNo) (s : t) : t :=
  {| stepIndex := stepIndex s; customerName := customerName s;
     installLocation := installLocation s; installDate := installDate s; serial := serial s;
     matterPaired := matterPaired s; matterAttested := matterAttested s;
     matterWifiProvisioned := matterWifiProvisioned s;
     matterProvisionedSsid := matterProvisionedSsid s; primaryInterface := primaryInterface s;
     selectedWifi := selectedWifi s; wifiPassword := wifiPassword s;
     usePairingDeviceNetwork := usePairingDeviceNetwork s; cellularBackup := cellularBackup s;
     satelliteBackup := satelliteBackup s; hhcType := hhcType s; foamInstalled := v;
     drainCycle := drainCycle s; zones := zones s; openDiagId := openDiagId s;
     rulebookOpen := rulebookOpen s; rulebookFocus := rulebookFocus s |}.

Definition setDrainCycle (v : YesNo) (s : t) : t :=
  {| stepIndex := stepIndex s; customerName := customerName s;
     installLocation := installLocation s; installDate := installDate s; serial := serial s;
     matterPaired := matterPaired s; matterAttested := matterAttested s;
     matterWifiProvisioned := matterWifiProvisioned s;
     matterProvisionedSsid := matterProvisionedSsid s; primaryInterface := primaryInterface s;
     selectedWifi := selectedWifi s; wifiPassword := wifiPassword s;
     usePairingDeviceNetwork := usePairingDeviceNetwork s; cellularBackup := cellularBackup s;
     satelliteBackup := satelliteBackup s; hhcType := hhcType s;
     foamInstalled := foamInstalled s; drainCycle := v; zones := zones s;
     openDiagId := openDiagId s; rulebookOpen := rulebookOpen s; rulebookFocus := rulebookFocus s |}.

Definition setZones (v : list Zone.t) (s : t) : t :=
  {| stepIndex := stepIndex s; customerName := customerName s;
     installLocation := installLocation s; installDate := installDate s; serial := serial s;
     matterPaired := matterPaired s; matterAttested := matterAttested s;
     matterWifiProvisioned := matterWifiProvisioned s;
     matterProvisionedSsid := matterProvisionedSsid s; primaryInterface := primaryInterface s;
     selectedWifi := selectedWifi s; wifiPassword := wifiPassword s;
     usePairingDeviceNetwork := usePairingDeviceNetwork s; cellularBackup := cellularBackup s;
     satelliteBackup := satelliteBackup s; hhcType := hhcType s;
     foamInstalled := foamInstalled s; drainCycle := drainCycle s; zones := v;
     openDiagId := openDiagId s; rulebookOpen := rulebookOpen s; rulebookFocus := rulebookFocus s |}.

Definition setOpenDiagId (v : option string) (s : t) : t :=
  {| stepIndex := stepIndex s; customerName := customerName s;
     installLocation := installLocation s; installDate := installDate s; serial := serial s;
     matterPaired := matterPaired s; matterAttested := matterAttested s;
     matterWifiProvisioned := matterWifiProvisioned s;
     matterProvisionedSsid := matterProvisionedSsid s; primaryInterface := primaryInterface s;
     selectedWifi := selectedWifi s; wifiPassword := wifiPassword s;
     usePairingDeviceNetwork := usePairingDeviceNetwork s; cellularBackup := cellularBackup s;
     satelliteBackup := satelliteBackup s; hhcType := hhcType s;
     foamInstalled := foamInstalled s; drainCycle := drainCycle s; zones := zones s;
     openDiagId := v; rulebookOpen := rulebookOpen s; rulebookFocus := rulebookFocus s |}.

Definition setRulebookOpen (v : bool) (s : t) : t :=
  {| stepIndex := stepIndex s; customerName := customerName s;
     installLocation := installLocation s; installDate := installDate s; serial := serial s;
     matterPaired := matterPaired s; matterAttested := matterAttested s;
     matterWifiProvisioned := matterWifiProvisioned s;
     matterProvisionedSsid := matterProvisionedSsid s; primaryInterface := primaryInterface s;
     selectedWifi := selectedWifi s; wifiPassword := wifiPassword s;
     usePairingDeviceNetwork := usePairingDeviceNetwork s; cellularBackup := cellularBackup s;
     satelliteBackup := satelliteBackup s; hhcType := hhcType s;
     foamInstalled := foamInstalled s; drainCycle := drainCycle s; zones := zones s;
     openDiagId := openDiagId s; rulebookOpen := v; rulebookFocus := rulebookFocus s |}.

Definition setRulebookFocus (v : option string) (s : t) : t :=
  {| stepIndex := stepIndex s; customerName := customerName s;
     installLocation := installLocation s; installDate := installDate s; serial := serial s;
     matterPaired := matterPaired s; matterAttested := matterAttested s;
     matterWifiProvisioned := matterWifiProvisioned s;
     matterProvisionedSsid := matterProvisionedSsid s; primaryInterface := primaryInterface s;
     selectedWifi := selectedWifi s; wifiPassword := wifiPassword s;
     usePairingDeviceNetwork := usePairingDeviceNetwork s; cellularBackup := cellularBackup s;
     satelliteBackup := satelliteBackup s; hhcType := hhcType s;
     foamInstalled := foamInstalled s; drainCycle := drainCycle s; zones := zones s;
     openDiagId := openDiagId s; rulebookOpen := rulebookOpen s; rulebookFocus := v |}.
End AppState.

(** The state of the first render; [today] is the date that
    [new Date().toISOString().slice(0, 10)] gives. *)
Definition initialState (today : string) : AppState.t :=
  {| AppState.stepIndex := 0;
     AppState.customerName := "Will Durness";
     AppState.installLocation := "10555 Quality Road; Quality, CA";
     AppState.installDate := today;
     AppState.serial := None;
     AppState.matterPaired := false;
     AppState.matterAttested := false;
     AppState.matterWifiProvisioned := false;
     AppState.matterProvisionedSsid := None;
     AppState.primaryInterface := "Ethernet";
     AppState.selectedWifi :=
       default pairingDeviceSsid (WifiNetwork.ssid <$> wifiNetworks !! 0%nat);
     AppState.wifiPassword := "";
     AppState.usePairingDeviceNetwork := true;
     AppState.cellularBackup := Yes;
     AppState.satelliteBackup := Yes;
     AppState.hhcType := "MP3";
     AppState.foamInstalled := Yes;
     AppState.drainCycle := Yes;
     AppState.zones := [{| Zone.id := 1; Zone.type := Roof; Zone.name := "Roof Zone 1" |}];
     AppState.openDiagId := None;
     AppState.rulebookOpen := false;
     AppState.rulebookFocus := None |}.

(** [l[i]] for an integral index; [None] is [undefined]. *)
Definition index {A : Type} (l : list A) (i : Z) : option A :=
  if (i <? 0)%Z then None else l !! Z.to_nat i.

(** [l.indexOf(x)]: the first position of [x], or [-1]. *)
Fixpoint indexOf (l : list string) (x : string) : Z :=
  match l with
  | [] => -1
  | y :: r =>
    if bool_decide (y = x) then 0%Z
    else let i := indexOf r x in if (i <? 0)%Z then (-1)%Z else (i + 1)%Z
  end.

(** [STEPS[stepIndex] ?? "QR Scan"]. *)
Definition step (s : AppState.t) : string :=
  default "QR Scan" (index STEPS (AppState.stepIndex s)).

Definition next (s : AppState.t) : AppState.t :=
  AppState.setStepIndex
    (Z.min (AppState.stepIndex s + 1) (Z.of_nat (length STEPS) - 1)) s.

Definition back (s : AppState.t) : AppState.t :=
  AppState.setStepIndex (Z.max (AppState.stepIndex s - 1) 0) s.

Definition goToStep (target : string) (s : AppState.t) : AppState.t :=
  let idx := indexOf STEPS target in
  if (idx >=? 0)%Z then AppState.setStepIndex idx s else s.

(** [simulateQrScan]; [random] is the value of [Math.random()].  The
    product is taken exactly; the product of doubles can differ from it by
    one rounding, which moves the floor by at most one and keeps it between
    0 and 9999. *)
Definition simulateQrScan (random : Q) (s : AppState.t) : AppState.t :=
  AppState.setMatterAttested true
    (AppState.setMatterPaired true
       (AppState.setSerial
          (Some ("3600" ++ Js.String_of_int (Qfloor (random * 10000)))%string) s)).

Definition provisionViaMatterUsingCurrentWifi (s : AppState.t) : AppState.t :=
  AppState.setMatterProvisionedSsid (Some pairingDeviceSsid)
    (AppState.setMatterWifiProvisioned true
       (AppState.setSelectedWifi pairingDeviceSsid
          (AppState.setUsePairingDeviceNetwork true
             (AppState.setPrimaryInterface "Wi-Fi" s)))).

Definition chooseWifi (ssid : string) (s : AppState.t) : AppState.t :=
  AppState.setMatterProvisionedSsid None
    (AppState.setMatterWifiProvisioned false
       (AppState.setUsePairingDeviceNetwork (bool_decide (ssid = pairingDeviceSsid))
          (AppState.setPrimaryInterface "Wi-Fi"
             (AppState.setSelectedWifi ssid s)))).

Definition addZone (s : AppState.t) : AppState.t :=
  let prev := AppState.zones s in
  let id := (Z.of_nat (length prev) + 1)%Z in
  AppState.setZones
    (prev ++ [{| Zone.id := id; Zone.type := Roof;
                 Zone.name := ("Roof Zone " ++ Js.String_of_int id)%string |}]) s.

(** The two [onChange] handlers of a zone row. *)
Definition changeZoneType (id : Z) (v : ZoneType) (s : AppState.t) : AppState.t :=
  AppState.setZones
    ((λ pz, if bool_decide (Zone.id pz = id)
            then {| Zone.id := Zone.id pz; Zone.type := v; Zone.name := Zone.name pz |}
            else pz) <$> AppState.zones s) s.

Definition changeZoneName (id : Z) (v : string) (s : AppState.t) : AppState.t :=
  AppState.setZones
    ((λ pz, if bool_decide (Zone.id pz = id)
            then {| Zone.id := Zone.id pz; Zone.type := Zone.type pz; Zone.name := v |}
            else pz) <$> AppState.zones s) s.

(** The button Provision Selected Wi-Fi via Matter. *)
Definition provisionSelectedWifi (s : AppState.t) : AppState.t :=
  AppState.setMatterProvisionedSsid (Some (AppState.selectedWifi s))
    (AppState.setMatterWifiProvisioned true s).

(** The button Status Rulebook. *)
Definition openStatusRulebook (s : AppState.t) : AppState.t :=
  AppState.setRulebookOpen true (AppState.setRulebookFocus None s).

(** [onToggle] of the card [id]. *)
Definition onToggle (id : string) (s : AppState.t) : AppState.t :=
  AppState.setOpenDiagId
    (if bool_decide (AppState.openDiagId s = Some id) then None else Some id) s.

(** [onRemediation] of the card [id]. *)
Definition onRemediation (id : string) (kind : ActionKind) (s : AppState.t) : AppState.t :=
  if bool_decide (kind = goToNetwork) then goToStep "Network" s
  else if bool_decide (kind = openCheatSheet) then
    AppState.setRulebookOpen true (AppState.setRulebookFocus (Some id) s)
  else s.

(** [open] of the card [id]. *)
Definition cardOpen (id : string) (s : AppState.t) : bool :=
  bool_decide (AppState.openDiagId s = Some id).

(** The option texts of the three selects that take strings. *)
Definition hhcOptions : list string := ["MP3"; "HP6"; "LV2"; "Legacy"].
Definition primaryInterfaceOptions : list string := ["Ethernet"; "Wi‑Fi"; "Cellular"].

(** What the controls of the component do. *)
Inductive Event : Type :=
  | ClickBack
  | ClickNext
  | ClickStepCircle (i : nat)
  | ClickSimulateScan (random : Q)
  | ChangeCustomerName (v : string)
  | ChangeInstallLocation (v : string)
  | ChangeInstallDate (v : string)
  | ChangeHhcType (v : string)
  | ChangeFoamInstalled (v : YesNo)
  | ChangeDrainCycle (v : YesNo)
  | ChangeZoneType (id : Z) (v : ZoneType)
  | ChangeZoneName (id : Z) (v : string)
  | ClickAddZone
  | ClickUseCurrentWifi
  | ChangePrimaryInterface (v : string)
  | ClickWifi (ssid : string)
  | ChangeWifiPassword (v : string)
  | ClickProvisionSelected
  | ChangeCellularBackup (v : YesNo)
  | ChangeSatelliteBackup (v : YesNo)
  | ClickStatusRulebook
  | ClickCard (id : string)
  | ClickRemediation (id : string) (kind : ActionKind)
  | CloseRulebook.

Definition handle (e : Event) (s : AppState.t) : AppState.t :=
  match e with
  | ClickBack => back s
  | ClickNext => next s
  | ClickStepCircle i => AppState.setStepIndex (Z.of_nat i) s
  | ClickSimulateScan random => simulateQrScan random s
  | ChangeCustomerName v => AppState.setCustomerName v s
  | ChangeInstallLocation v => AppState.setInstallLocation v s
  | ChangeInstallDate v => AppState.setInstallDate v s
  | ChangeHhcType v => AppState.setHhcType v s
  | ChangeFoamInstalled v => AppState.setFoamInstalled v s
  | ChangeDrainCycle v => AppState.setDrainCycle v s
  | ChangeZoneType id v => changeZoneType id v s
  | ChangeZoneName id v => changeZoneName id v s
  | ClickAddZone => addZone s
  | ClickUseCurrentWifi => provisionViaMatterUsingCurrentWifi s
  | ChangePrimaryInterface v => AppState.setPrimaryInterface v s
  | ClickWifi ssid => chooseWifi ssid s
  | ChangeWifiPassword v => AppState.setWifiPassword v s
  | ClickProvisionSelected => provisionSelectedWifi s
  | ChangeCellularBackup v => AppState.setCellularBackup v s
  | ChangeSatelliteBackup v => AppState.setSatelliteBackup v s
  | ClickStatusRulebook => openStatusRulebook s
  | ClickCard id => onToggle id s
  | ClickRemediation id kind => onRemediation id kind s
  | CloseRulebook => AppState.setRulebookOpen false s
  end.

(** The payloads that the rendered controls can carry: a step circle
    exists for each element of [STEPS], a Wi-Fi row for each network and
    for the pairing device, a zone row for each zone, a card for each card
    id, and [Math.random()] lies in [0, 1). *)
Definition offered (s : AppState.t) (e : Event) : Prop :=
  match e with
  | ClickStepCircle i => (i < length STEPS)%nat
  | ClickSimulateScan random => (0 <= random)%Q /\ (random < 1)%Q
  | ChangeHhcType v => v ∈ hhcOptions
  | ChangePrimaryInterface v => v ∈ primaryInterfaceOptions
  | ChangeZoneType id _ | ChangeZoneName id _ => id ∈ Zone.id <$> AppState.zones s
  | ClickWifi ssid => ssid ∈ pairingDeviceSsid :: (WifiNetwork.ssid <$> wifiNetworks)
  | ClickCard id | ClickRemediation id _ => id ∈ required
  | _ => True
  end.

(** The states that sequences of offered events lead to.  Every control
    is taken to be available in every state, which covers the states that
    the rendered steps can reach. *)
Inductive reachable (today : string) : AppState.t -> Prop :=
  | reachable_initial : reachable today (initialState today)
  | reachable_handle (s : AppState.t) (e : Event) :
      reachable today s -> offered s e -> reachable today (handle e s).

(** The cards of the application: the measurements of [base] with the
    satellite and the provisioning values that the component derives from
    its state. *)
Definition appSnapshot (base : Snapshot.t) (s : AppState.t) : Snapshot.t :=
  let satEnabled := bool_decide (AppState.satelliteBackup s = Yes) in
  {| Snapshot.voltage := Snapshot.voltage base;
     Snapshot.ethLinkDetected := Snapshot.ethLinkDetected base;
     Snapshot.ethInternet := Snapshot.ethInternet base;
     Snapshot.ethRxErrors := Snapshot.ethRxErrors base;
     Snapshot.ethTxErrors := Snapshot.ethTxErrors base;
     Snapshot.wifiTechPowered := Snapshot.wifiTechPowered base;
     Snapshot.wifiConnected := Snapshot.wifiConnected base;
     Snapshot.wifiInternetReachability := Snapshot.wifiInternetReachability base;
     Snapshot.cellInternetReachability := Snapshot.cellInternetReachability base;
     Snapshot.cellPacketLossPct := Snapshot.cellPacketLossPct base;
     Snapshot.cellStrength := Snapshot.cellStrength base;
     Snapshot.satStatus := if satEnabled then sat_offline else sat_not_configured;
     Snapshot.manifoldPsi := Snapshot.manifoldPsi base;
     Snapshot.sourcePsi := Snapshot.sourcePsi base;
     Snapshot.cloudReachable := Snapshot.cloudReachable base;
     Snapshot.cloudPingMs := Snapshot.cloudPingMs base;
     Snapshot.firmwareSupported := Snapshot.firmwareSupported base;
     Snapshot.firmwareUpdateAvailable := Snapshot.firmwareUpdateAvailable base;
     Snapshot.satEnabled := satEnabled;
     Snapshot.matterWifiProvisioned := AppState.matterWifiProvisioned s;
     Snapshot.matterProvisionedSsid := AppState.matterProvisionedSsid s |}.

Definition appDiagCards (base : Snapshot.t) (s : AppState.t) : list DiagCardModel.t :=
  diagCards (appSnapshot base s).

(** Rows of the Done step. *)
Definition serialNumberRow (s : AppState.t) : string :=
  default "—" (AppState.serial s).

Definition wifiNetworkRow (s : AppState.t) : string :=
  match AppState.matterProvisionedSsid s with
  | Some ssid => ssid
  | None =>
    if bool_decide (AppState.selectedWifi s = "") then "Not provisioned"
    else AppState.selectedWifi s
  end.

Definition zonesConfiguredRow (s : AppState.t) : string :=
  Js.String_of_int (Z.of_nat (length (AppState.zones s))).

(** [disabled] of the header Back button and of Continue Setup. *)
Definition backDisabled (s : AppState.t) : bool :=
  bool_decide (AppState.stepIndex s = 0%Z).

Definition continueSetupDisabled (s : AppState.t) : bool :=
  match AppState.serial s with
  | Some v => bool_decide (v = "")
  | None => true
  end.

(** The content of the circle of step [i]: a check mark once the step is
    passed, its number otherwise. *)
Definition stepCircle (i : nat) (s : AppState.t) : string :=
  if (Z.of_nat i <? AppState.stepIndex s)%Z then "✓"
  else Js.String_of_int (Z.of_nat i + 1).

(** ** The self-test of the source *)

(** [__selfTest]; [Some msg] is a thrown error. *)
Definition __selfTest : option string :=
  let z := {| Zone.id := 1; Zone.type := Roof_Eave; Zone.name := "Combo" |} in
  if bool_decide (Zone.name z = "") || negb (bool_decide (Zone.id z = 1%Z))
  then Some "Zone self-test failed" else
  let w := {| WifiNetwork.ssid := "X"; WifiNetwork.strength := 3;
              WifiNetwork.security := WPA2 |} in
  if bool_decide (WifiNetwork.ssid w = "") || (WifiNetwork.strength w <? 1)%Z
     || (5 <? WifiNetwork.strength w)%Z
  then Some "Wi‑Fi self-test failed" else
  let statuses := [success; warning; error] in
  if negb (bool_decide (length statuses = 3%nat))
  then Some "Status union self-test failed" else
  if negb (bool_decide (wifiChannelFromFreqMHz (Some (Js.of_Z 2412)) = Some "1"))
  then Some "Wi‑Fi channel calc failed (2.4GHz)" else
  if negb (bool_decide (wifiChannelFromFreqMHz (Some (Js.of_Z 5180)) = Some "36"))
  then Some "Wi‑Fi channel calc failed (5GHz)" else
  match wifiStrengthGlyph (Some (Js.of_Z 100)) with
  | None => Some "RangeError"
  | Some g100 =>
    if negb (bool_decide (g100 = "▮▮▮▮▮")) then Some "Wi‑Fi strength glyph failed (100)" else
    match wifiStrengthGlyph (Some (Js.of_Z 0)) with
    | None => Some "RangeError"
    | Some g0 =>
      if negb (bool_decide (g0 = "▯▯▯▯▯")) then Some "Wi‑Fi strength glyph failed (0)" else
      (λ id, ("Rulebook missing: " ++ id)%string) <$>
        List.find (λ id, negb (bool_decide (is_Some (RULEBOOK_find id)))) required
    end
  end.

(** ** Reference definitions for the new properties *)

(** The most severe status of a list of cards: error before warning before
    success. *)
Definition severity (st : DiagnosticStatus) : nat :=
  match st with success => 0 | warning => 1 | error => 2 end.

Definition worstStatus (diagCards : list DiagCardModel.t) : DiagnosticStatus :=
  foldr (λ d acc, if (severity acc <? severity (DiagCardModel.status d))%nat
                  then DiagCardModel.status d else acc)
        success diagCards.

(** The cards that are rendered open. *)
Definition openCards (base : Snapshot.t) (s : AppState.t) : list DiagCardModel.t :=
  filter (λ d, cardOpen (DiagCardModel.id d) s = true) (appDiagCards base s).

(** A zone with another type, and with another name. *)
Definition withType (v : ZoneType) (z : Zone.t) : Zone.t :=
  {| Zone.id := Zone.id z; Zone.type := v; Zone.name := Zone.name z |}.

Definition withName (v : string) (z : Zone.t) : Zone.t :=
  {| Zone.id := Zone.id z; Zone.type := Zone.type z; Zone.name := v |}.

(** The number of filled segments of the glyph of a finite percentage. *)
Definition filledOf (q : Q) : Z :=
  Z.max 0 (Z.min 5 ((Z.max 0 (Z.min 100 (Js.round q)) + 10) / 20)).

(** What holds of the state of the component after any sequence of
    events. *)
Record Consistent (s : AppState.t) : Prop := {
  step_in_range : (0 <= AppState.stepIndex s < Z.of_nat (length STEPS))%Z;
  scanned :
    match AppState.serial s with
    | Some v =>
      AppState.matterPaired s = true /\ AppState.matterAttested s = true /\
      exists n : Z, (0 <= n <= 9999)%Z /\ v = ("3600" ++ Js.String_of_int n)%string
    | None => AppState.matterPaired s = false /\ AppState.matterAttested s = false
    end;
  selected_known :
    AppState.selectedWifi s ∈ pairingDeviceSsid :: (WifiNetwork.ssid <$> wifiNetworks);
  pairing_flag :
    AppState.usePairingDeviceNetwork s =
    bool_decide (AppState.selectedWifi s = pairingDeviceSsid);
  provisioned :
    if AppState.matterWifiProvisioned s
    then AppState.matterProvisionedSsid s = Some (AppState.selectedWifi s)
    else AppState.matterProvisionedSsid s = None;
  zone_ids :
    Zone.id <$> AppState.zones s =
    Z.of_nat <$> seq 1 (length (AppState.zones s));
  zone_exists : AppState.zones s ≠ [];
  focus_known :
    match AppState.rulebookFocus s with
    | Some id => id ∈ required
    | None => True
    end;
  open_known :
    match AppState.openDiagId s with
    | Some id => id ∈ required
    | None => True
    end
}.

(** ** Properties *)

Section JsFacts.

Lemma Qle_bool_spec (a b : Q) : reflect (a <= b)%Q (Qle_bool a b).
Proof.
  destruct (Qle_bool a b) eqn:E; constructor.
  - by apply Qle_bool_iff.
  - intros H. apply Qle_bool_iff in H. congruence.
Qed.

Lemma Qeq_bool_spec (a b : Q) : reflect (a == b)%Q (Qeq_bool a b).
Proof.
  destruct (Qeq_bool a b) eqn:E; constructor.
  - by apply Qeq_bool_iff.
  - intros H. apply Qeq_bool_iff in H. congruence.
Qed.

(** [Js.round] is the nearest integer, a tie going up. *)
Lemma round_bounds (q : Q) :
  (q - (1 # 2) < inject_Z (Js.round q))%Q /\ (inject_Z (Js.round q) <= q + (1 # 2))%Q.
Proof.
  unfold Js.round. split.
  - pose proof (Qlt_floor (q + (1 # 2))) as H.
    rewrite inject_Z_plus in H. change (inject_Z 1) with 1%Q in H. lra.
  - apply Qfloor_le.
Qed.

Lemma round_mono (q r : Q) : (q <= r)%Q -> (Js.round q <= Js.round r)%Z.
Proof. intros H. apply Qfloor_resp_le. lra. Qed.

Lemma round_inject_Z (z : Z) : Js.round (inject_Z z) = z.
Proof.
  unfold Js.round, Qfloor, Qplus, inject_Z. simpl.
  Z.to_euclidean_division_equations. lia.
Qed.

(** Rounding a twentieth of an integer. *)
Lemma round_div_20 (c : Z) :
  Js.round (inject_Z c / inject_Z 20) = ((c + 10) / 20)%Z.
Proof.
  unfold Js.round, Qfloor, Qplus, Qdiv, Qmult, Qinv, inject_Z. simpl.
  Z.to_euclidean_division_equations. lia.
Qed.

End JsFacts.

Ltac js_cmp :=
  repeat match goal with
  | |- context [Qle_bool ?a ?b] => destruct (Qle_bool_spec a b)
  | |- context [Qeq_bool ?a ?b] => destruct (Qeq_bool_spec a b)
  end; simpl.

(** C1. Power status by supply voltage: success exactly on [12, 15],
    warning exactly on [11, 12) and (15, 16], error on every other input
    (below 11, above 16, NaN and the infinities); at the boundaries, 12 is
    success, 11 and 16 are warnings, 10.99 and 16.01 are errors. *)
Theorem powerStatus_bands :
  (forall v : Js.number,
     (powerStatus v = success <->
        exists q, v = Js.Finite q /\ (12 <= q)%Q /\ (q <= 15)%Q) /\
     (powerStatus v = warning <->
        exists q, v = Js.Finite q /\
          (((11 <= q)%Q /\ (q < 12)%Q) \/ ((15 < q)%Q /\ (q <= 16)%Q))) /\
     (powerStatus v = error <->
        ~ (exists q, v = Js.Finite q /\ (11 <= q)%Q /\ (q <= 16)%Q))) /\
  powerStatus 12%Z = success /\
  powerStatus 11%Z = warning /\
  powerStatus (Js.Finite (1099 # 100)) = error /\
  powerStatus double_10_99 = error /\
  powerStatus 16%Z = warning /\
  powerStatus (Js.Finite (1601 # 100)) = error /\
  powerStatus double_16_01 = error.
Proof.
  split; [|by vm_compute].
  intros v. destruct v as [| | |q].
  1-3: by (repeat split; try done; try (intros (q & ? & _); done);
           try (intros _ (q & ? & _); done)).
  unfold powerStatus, Js.ge, Js.gt, Js.le, Js.lt, Js.of_Z.
  change (inject_Z 12) with 12%Q. change (inject_Z 15) with 15%Q.
  change (inject_Z 11) with 11%Q. change (inject_Z 16) with 16%Q.
  js_cmp; repeat split; try done.
  all: try (intros _; exists q; split; [done|]; lra).
  all: try (intros (q' & [= <-] & H); lra).
  all: try (intros _ (q' & [= <-] & H); lra).
  all: try (intros H; exfalso; apply H; exists q; split; [done|]; lra).
Qed.

(** *** Wi-Fi channel *)

Lemma wifiChannel_Finite (q : Q) :
  wifiChannelFromFreqMHz (Some (Js.Finite q)) =
    if Qeq_bool q 0 then None
    else if Qle_bool 2412 q && Qle_bool q 2484
    then Some (Js.String_of_int (Js.round ((q - 2407) / 5)))
    else if Qle_bool 5000 q && Qle_bool q 5900
    then Some (Js.String_of_int (Js.round ((q - 5000) / 5)))
    else None.
Proof.
  unfold wifiChannelFromFreqMHz, Js.truthy, Js.ge, Js.le, Js.of_Z. simpl.
  destruct (Qeq_bool q 0); simpl; [done|].
  change (inject_Z 2412) with 2412%Q. change (inject_Z 2484) with 2484%Q.
  change (inject_Z 5000) with 5000%Q. change (inject_Z 5900) with 5900%Q.
  by repeat case_match.
Qed.

(** C5. Channel from frequency: in the 2.4 GHz band [2412, 2484] the
    result is the decimal string of the integer nearest to
    [(f - 2407) / 5]; in the 5 GHz band [5000, 5900] that of the integer
    nearest to [(f - 5000) / 5]; every other number (NaN and the infinities
    included) and null give no channel.  [channel(2412) = 1],
    [channel(5180) = 36], [channel(3000)] and [channel(null)] are absent. *)
Theorem wifiChannel_by_band :
  (forall q : Q, (2412 <= q)%Q -> (q <= 2484)%Q ->
     let ch := Js.round ((q - 2407) / 5) in
     wifiChannelFromFreqMHz (Some (Js.Finite q)) = Some (Js.String_of_int ch) /\
     ((q - 2407) / 5 - (1 # 2) < inject_Z ch)%Q /\
     (inject_Z ch <= (q - 2407) / 5 + (1 # 2))%Q) /\
  (forall q : Q, (5000 <= q)%Q -> (q <= 5900)%Q ->
     let ch := Js.round ((q - 5000) / 5) in
     wifiChannelFromFreqMHz (Some (Js.Finite q)) = Some (Js.String_of_int ch) /\
     ((q - 5000) / 5 - (1 # 2) < inject_Z ch)%Q /\
     (inject_Z ch <= (q - 5000) / 5 + (1 # 2))%Q) /\
  (forall f : Js.number,
     ~ (exists q, f = Js.Finite q /\
          (((2412 <= q)%Q /\ (q <= 2484)%Q) \/ ((5000 <= q)%Q /\ (q <= 5900)%Q))) ->
     wifiChannelFromFreqMHz (Some f) = None) /\
  wifiChannelFromFreqMHz None = None /\
  wifiChannelFromFreqMHz (Some (Js.of_Z 2412)) = Some "1" /\
  wifiChannelFromFreqMHz (Some (Js.of_Z 5180)) = Some "36" /\
  wifiChannelFromFreqMHz (Some (Js.of_Z 3000)) = None.
Proof.
  split; [|split; [|split; [|by vm_compute]]].
  - intros q Hlo Hhi ch. split; [|apply round_bounds].
    rewrite wifiChannel_Finite. js_cmp; try done; lra.
  - intros q Hlo Hhi ch. split; [|apply round_bounds].
    rewrite wifiChannel_Finite. js_cmp; try done; lra.
  - intros [| | |q] Hout; try done.
    rewrite wifiChannel_Finite. js_cmp; try done.
    all: exfalso; apply Hout; exists q; split; [done|]; lra.
Qed.

Lemma wifiChannel_by_band_witness :
  wifiChannelFromFreqMHz (Some (Js.Finite 2437)) = Some "6" /\
  wifiChannelFromFreqMHz (Some (Js.Finite 5745)) = Some "149" /\
  wifiChannelFromFreqMHz (Some Js.NaN) = None.
Proof.
  destruct wifiChannel_by_band as (H24 & H5 & Hout & _).
  split; [|split].
  - destruct (H24 2437%Q) as [-> _]; [lra|lra|]. by vm_compute.
  - destruct (H5 5745%Q) as [-> _]; [lra|lra|]. by vm_compute.
  - apply Hout. intros (q & [=] & _).
Defined.

(** *** Signal-bars glyph *)

(** The number of filled segments for a finite percentage. *)
Lemma wifiStrengthGlyph_Finite (q : Q) :
  wifiStrengthGlyph (Some (Js.Finite q)) =
    Some (five_segments
            (Z.to_nat (Z.max 0 (Z.min 5 ((Z.max 0 (Z.min 100 (Js.round q)) + 10) / 20))))).
Proof.
  unfold wifiStrengthGlyph. simpl. rewrite round_div_20.
  set (filled := Z.max 0 (Z.min 5 _)).
  assert (0 <= filled <= 5)%Z as Hf by lia.
  unfold Js.repeat.
  destruct (Z.ltb_spec filled 0); [lia|].
  destruct (Z.ltb_spec (5 - filled) 0); [lia|].
  simpl. unfold five_segments. do 3 f_equal. lia.
Qed.

Lemma round_clamp_pct (q : Q) :
  Z.max 0 (Z.min 100 (Js.round (clamp_pct q))) = Z.max 0 (Z.min 100 (Js.round q)).
Proof.
  unfold clamp_pct.
  destruct (Qle_bool_spec q 0) as [H0|H0].
  - apply round_mono in H0. change 0%Q with (inject_Z 0) in *.
    rewrite round_inject_Z in *. lia.
  - destruct (Qle_bool_spec 100 q) as [H1|H1]; [|done].
    apply round_mono in H1. change 100%Q with (inject_Z 100) in *.
    rewrite round_inject_Z in *. lia.
Qed.

(** C6. The glyph clamps the percentage to [0, 100] and fills the number
    of segments nearest to a twentieth of it: [glyph(-5) = glyph(0)],
    [glyph(150) = glyph(100)], [glyph(100)] is five filled segments,
    [glyph(0)] five empty ones, and null, NaN and the infinities give five
    empty segments. No input makes it throw. *)
Theorem wifiStrengthGlyph_clamps :
  (forall q : Q,
     wifiStrengthGlyph (Some (Js.Finite q)) =
     wifiStrengthGlyph (Some (Js.Finite (clamp_pct q)))) /\
  (forall q : Q, (0 <= q)%Q -> (q <= 100)%Q ->
     exists filled : Z,
       (0 <= filled <= 5)%Z /\
       wifiStrengthGlyph (Some (Js.Finite q)) = Some (five_segments (Z.to_nat filled)) /\
       filled = Js.round (inject_Z (Js.round q) / inject_Z 20) /\
       (20 * filled - 10 <= Js.round q < 20 * filled + 10)%Z) /\
  (forall pct : option Js.number,
     exists filled : nat,
       (filled <= 5)%nat /\ wifiStrengthGlyph pct = Some (five_segments filled)) /\
  wifiStrengthGlyph (Some (Js.of_Z (-5))) = wifiStrengthGlyph (Some (Js.of_Z 0)) /\
  wifiStrengthGlyph (Some (Js.of_Z 150)) = wifiStrengthGlyph (Some (Js.of_Z 100)) /\
  wifiStrengthGlyph (Some (Js.of_Z 100)) = Some "▮▮▮▮▮" /\
  wifiStrengthGlyph (Some (Js.of_Z 0)) = Some "▯▯▯▯▯" /\
  wifiStrengthGlyph None = Some "▯▯▯▯▯" /\
  (forall v : Js.number,
     Js.isFinite v = false -> wifiStrengthGlyph (Some v) = Some "▯▯▯▯▯").
Proof.
  split; [|split; [|split]].
  - intros q. by rewrite !wifiStrengthGlyph_Finite, round_clamp_pct.
  - intros q H0 H1.
    assert (0 <= Js.round q <= 100)%Z as Hr.
    { split.
      - apply round_mono in H0. change 0%Q with (inject_Z 0) in H0.
        by rewrite round_inject_Z in H0.
      - apply round_mono in H1. change 100%Q with (inject_Z 100) in H1.
        by rewrite round_inject_Z in H1. }
    exists ((Js.round q + 10) / 20)%Z.
    rewrite wifiStrengthGlyph_Finite, round_div_20.
    repeat split; try (Z.to_euclidean_division_equations; lia).
    do 3 f_equal. Z.to_euclidean_division_equations; lia.
  - intros [[| | |q]|]; try (by exists 0%nat; split; [lia|]).
    rewrite wifiStrengthGlyph_Finite. eexists; split; [|done].
    Z.to_euclidean_division_equations; lia.
  - repeat split; try by vm_compute.
    by intros [| | |q].
Qed.

Lemma wifiStrengthGlyph_clamps_witness :
  wifiStrengthGlyph (Some (Js.Finite (49 # 1))) = Some "▮▮▯▯▯" /\
  wifiStrengthGlyph (Some Js.PosInf) = Some "▯▯▯▯▯".
Proof.
  destruct wifiStrengthGlyph_clamps as (_ & Hband & _ & _ & _ & _ & _ & _ & Hnf).
  split.
  - destruct (Hband (49 # 1)) as (filled & _ & -> & -> & _); [lra|lra|].
    by vm_compute.
  - by apply Hnf.
Defined.

(** *** Satellite, Ethernet and Wi-Fi status *)

(** C7. The satellite status is never error: it is success when the
    backup is enabled and its state is ready, and warning in every other
    combination of the flag and the state. *)
Theorem satelliteStatus_never_error (satEnabled : bool) (satStatus : SatState) :
  satelliteStatus satEnabled satStatus ≠ error /\
  (satelliteStatus satEnabled satStatus = success <->
     satEnabled = true /\ satStatus = sat_ready) /\
  (satelliteStatus satEnabled satStatus = warning <->
     ~ (satEnabled = true /\ satStatus = sat_ready)) /\
  (forall s : Snapshot.t,
     exists d, diagCards s !! 3%nat = Some d /\
       DiagCardModel.id d = "satellite" /\
       DiagCardModel.status d =
         satelliteStatus (Snapshot.satEnabled s) (Snapshot.satStatus s) /\
       DiagCardModel.status d ≠ error).
Proof.
  split; [|split; [|split]].
  1-3: destruct satEnabled, satStatus; cbv; intuition congruence.
  intros s. eexists. split; [done|]. repeat split.
  by destruct (Snapshot.satEnabled s), (Snapshot.satStatus s).
Qed.

(** A number that is zero. *)
Lemma strict_eq_zero (n : Js.number) :
  Js.strict_eq n 0%Z = true <-> exists q, n = Js.Finite q /\ (q == 0)%Q.
Proof.
  destruct n as [| | |q]; simpl; try (split; [done|by intros (q & ? & _)]).
  change (inject_Z 0) with 0%Q. rewrite Qeq_bool_iff. split.
  - intros H. by exists q.
  - by intros (q' & [= <-] & H).
Qed.

(** C8. The Ethernet status is success exactly when the link is detected,
    the internet is online and both error counts are zero; error exactly
    when the link is not detected or the internet is not online; warning in
    the remaining case.  The card shows Connected on success and Offline on
    error. *)
Theorem ethStatus_classification :
  (forall (ethLinkDetected ethInternet : string) (ethRxErrors ethTxErrors : Js.number),
     let st := ethStatus ethLinkDetected ethInternet ethRxErrors ethTxErrors in
     let zero n := exists q, n = Js.Finite q /\ (q == 0)%Q in
     (st = success <->
        ethLinkDetected = "Yes" /\ ethInternet = "online" /\
        zero ethRxErrors /\ zero ethTxErrors) /\
     (st = error <-> ethLinkDetected ≠ "Yes" \/ ethInternet ≠ "online") /\
     (st = warning <->
        ethLinkDetected = "Yes" /\ ethInternet = "online" /\
        ~ (zero ethRxErrors /\ zero ethTxErrors))) /\
  (forall s : Snapshot.t,
     exists d, diagCards s !! 0%nat = Some d /\
       DiagCardModel.id d = "ethernet" /\
       DiagCardModel.status d =
         ethStatus (Snapshot.ethLinkDetected s) (Snapshot.ethInternet s)
           (Snapshot.ethRxErrors s) (Snapshot.ethTxErrors s) /\
       (DiagCardModel.status d = success -> DiagCardModel.summaryPrimary d = "Connected") /\
       (DiagCardModel.status d = error -> DiagCardModel.summaryPrimary d = "Offline")) /\
  ethStatus "Yes" "online" 0%Z 0%Z = success /\
  (forall (ethInternet : string) (ethRxErrors ethTxErrors : Js.number),
     ethStatus "No" ethInternet ethRxErrors ethTxErrors = error).
Proof.
  split; [|split; [|split; [done|]]].
  - intros link internet rx tx st zero. subst st.
    pose proof (strict_eq_zero rx) as Hrx. pose proof (strict_eq_zero tx) as Htx.
    fold (zero rx) in Hrx. fold (zero tx) in Htx.
    unfold ethStatus.
    destruct (Js.strict_eq rx 0%Z), (Js.strict_eq tx 0%Z);
      repeat case_bool_decide; simpl; intuition (try done).
  - intros s. eexists. split; [done|]. simpl. repeat split.
    + intros ->. done.
    + intros ->. done.
  - intros internet rx tx. unfold ethStatus. by repeat case_bool_decide.
Qed.

Lemma ethStatus_classification_witness :
  ethStatus "Yes" "online" 0%Z (Js.Finite (3 # 1)) = warning /\
  ethStatus "Yes" "offline" 0%Z 0%Z = error.
Proof.
  destruct ethStatus_classification as (H & _).
  split.
  - apply (H "Yes" "online" (Js.of_Z 0) (Js.Finite (3 # 1))).
    split; [done|]. split; [done|].
    intros [_ (q & [= <-] & Hq)]. by vm_compute in Hq.
  - apply (H "Yes" "offline" (Js.of_Z 0) (Js.of_Z 0)). by right.
Defined.

(** C9. Whenever the Wi-Fi status is warning the card shows
    Disabled / Optional, also when the warning comes from a provisioned or
    a connected interface that lacks internet reachability and Wi-Fi is
    powered. *)
Theorem wifi_warning_summary :
  (forall (wifiProvisioned : bool) (reach : Reachability) (wifiTechPowered wifiConnected : bool),
     wifiStatus wifiProvisioned reach wifiTechPowered wifiConnected = warning ->
     wifiSummaryPrimary (wifiStatus wifiProvisioned reach wifiTechPowered wifiConnected)
       = "Disabled / Optional") /\
  (forall s : Snapshot.t,
     exists d, diagCards s !! 1%nat = Some d /\
       DiagCardModel.id d = "wifi" /\
       (DiagCardModel.status d = warning ->
        DiagCardModel.summaryPrimary d = "Disabled / Optional")) /\
  (forall (reach : Reachability) (wifiTechPowered wifiConnected : bool),
     reach ≠ online ->
     wifiStatus true reach wifiTechPowered wifiConnected = warning) /\
  (forall reach : Reachability,
     reach ≠ online -> wifiStatus false reach true true = warning).
Proof.
  split; [|split; [|split]].
  - by intros prov reach powered conn ->.
  - intros s. eexists. split; [done|]. split; [done|]. simpl. by intros ->.
  - intros reach powered conn H. unfold wifiStatus. by case_bool_decide.
  - intros reach H. unfold wifiStatus. simpl. by repeat case_bool_decide.
Qed.

Lemma wifi_warning_summary_witness :
  wifiSummaryPrimary (wifiStatus true offline true true) = "Disabled / Optional" /\
  wifiStatus false unknown true true = warning.
Proof.
  destruct wifi_warning_summary as (Hsum & _ & _ & Hconn).
  split.
  - by apply Hsum.
  - by apply Hconn.
Defined.

(** *** Overview: label and issues *)

Section Overview.

Implicit Types (cards : list DiagCardModel.t) (d : DiagCardModel.t).

Lemma existsb_status (st : DiagnosticStatus) cards :
  existsb (λ d, bool_decide (DiagCardModel.status d = st)) cards = true <->
  any_status st cards.
Proof.
  rewrite existsb_exists. unfold any_status.
  split; intros (d & Hin & Hst); exists d.
  - split; [by apply list_elem_of_In|by apply bool_decide_eq_true in Hst].
  - split; [by apply list_elem_of_In|by apply bool_decide_eq_true].
Qed.

Lemma hasError_spec cards : reflect (any_status error cards) (hasError cards).
Proof.
  unfold hasError. pose proof (existsb_status error cards) as H.
  destruct (existsb _ cards); constructor; [by apply H|].
  intros Hany. by apply H in Hany.
Qed.

Lemma hasWarning_spec cards : reflect (any_status warning cards) (hasWarning cards).
Proof.
  unfold hasWarning. pose proof (existsb_status warning cards) as H.
  destruct (existsb _ cards); constructor; [by apply H|].
  intros Hany. by apply H in Hany.
Qed.

Lemma all_success_iff cards :
  Forall (λ d, DiagCardModel.status d = success) cards <->
  ~ any_status error cards /\ ~ any_status warning cards.
Proof.
  rewrite Forall_forall. unfold any_status. split.
  - intros H. split; intros (d & Hin & Hst); apply H in Hin; congruence.
  - intros [He Hw] d Hin.
    destruct (DiagCardModel.status d) eqn:Hst; [done| |].
    + exfalso. apply Hw. by exists d.
    + exfalso. apply He. by exists d.
Qed.

Lemma filter_issues_nil cards :
  filter (λ d, DiagCardModel.status d ≠ success) cards = [] <->
  Forall (λ d, DiagCardModel.status d = success) cards.
Proof.
  induction cards as [|d cards IH].
  - split; [constructor|done].
  - rewrite filter_cons. case_decide as Hd.
    + split; [done|]. intros Hall. by inversion Hall.
    + rewrite IH. split.
      * intros Hall. constructor; [|done].
        by destruct (decide (DiagCardModel.status d = success)).
      * intros Hall. by inversion Hall.
Qed.

End Overview.

(** C2. The label of the overview card: Needs Attention as soon as one
    card is in error, whatever the other cards are; otherwise Good (with
    advisories) when one card is a warning; otherwise Excellent.  The spec
    writes the three labels in lower case. *)
Theorem statusLabel_precedence (cards : list DiagCardModel.t) :
  (any_status error cards -> statusLabel cards = "Needs Attention") /\
  (~ any_status error cards -> any_status warning cards ->
     statusLabel cards = "Good (with advisories)") /\
  (~ any_status error cards -> ~ any_status warning cards ->
     statusLabel cards = "Excellent") /\
  (lower (statusLabel cards) = "needs attention" <-> any_status error cards) /\
  (lower (statusLabel cards) = "good (with advisories)" <->
     ~ any_status error cards /\ any_status warning cards) /\
  (lower (statusLabel cards) = "excellent" <->
     ~ any_status error cards /\ ~ any_status warning cards).
Proof.
  unfold statusLabel.
  destruct (hasError_spec cards) as [He|He], (hasWarning_spec cards) as [Hw|Hw];
    repeat split; try done; try tauto;
    try (by intros [H1 H2]); try (intros H; by vm_compute in H).
Qed.

Ltac card_at i :=
  eexists; split; [by apply list_elem_of_lookup_2 with i|by vm_compute].

Ltac no_card :=
  let H := fresh in intros H; apply existsb_status in H; by vm_compute in H.

Lemma statusLabel_precedence_witness :
  statusLabel (diagCards five_issues) = "Needs Attention" /\
  statusLabel (diagCards (demo true false None)) = "Good (with advisories)" /\
  statusLabel (diagCards all_good) = "Excellent".
Proof.
  split; [|split].
  - apply (statusLabel_precedence (diagCards five_issues)). card_at 4%nat.
  - apply (statusLabel_precedence (diagCards (demo true false None))).
    + no_card.
    + card_at 3%nat.
  - apply (statusLabel_precedence (diagCards all_good)); no_card.
Defined.

(** C10. The Done step and the overview card compute the overall label
    separately.  With a warning and no error the row of the Done step reads
    Good and the card reads Good (with advisories); the two labels are the
    same up to letter case exactly when a card is in error or every card is
    a success. *)
Theorem done_row_and_card_labels (cards : list DiagCardModel.t) :
  (~ any_status error cards -> any_status warning cards ->
     doneOverallStatus cards = "Good" /\
     statusLabel cards = "Good (with advisories)") /\
  (any_status error cards ->
     doneOverallStatus cards = "Needs attention" /\
     statusLabel cards = "Needs Attention") /\
  (Forall (λ d, DiagCardModel.status d = success) cards ->
     doneOverallStatus cards = "Excellent" /\ statusLabel cards = "Excellent") /\
  (lower (doneOverallStatus cards) = lower (statusLabel cards) <->
     any_status error cards \/
     Forall (λ d, DiagCardModel.status d = success) cards) /\
  (doneOverallStatus cards = statusLabel cards <->
     Forall (λ d, DiagCardModel.status d = success) cards).
Proof.
  rewrite all_success_iff.
  unfold doneOverallStatus, statusLabel.
  fold (hasError cards). fold (hasWarning cards).
  destruct (hasError_spec cards) as [He|He], (hasWarning_spec cards) as [Hw|Hw];
    repeat split; try done; try tauto;
    try (by intros [H1 H2]); try (intros H; by vm_compute in H).
Qed.

Lemma done_row_and_card_labels_witness :
  (doneOverallStatus (diagCards (demo true false None)) = "Good" /\
   statusLabel (diagCards (demo true false None)) = "Good (with advisories)") /\
  (doneOverallStatus (diagCards five_issues) = "Needs attention" /\
   statusLabel (diagCards five_issues) = "Needs Attention").
Proof.
  split.
  - apply (done_row_and_card_labels (diagCards (demo true false None))).
    + no_card.
    + card_at 8%nat.
  - apply (done_row_and_card_labels (diagCards five_issues)). card_at 4%nat.
Defined.

(** C3. The issues of the overview card are the cards that are not a
    success, in the order of the list of cards (for the nine cards of the
    application: Ethernet, Wi-Fi, Cellular, Satellite, Power, Manifold,
    Source, Cloud, Firmware), whatever their severity, cut after the third,
    each shown as its title, a colon and its primary summary; when every
    card is a success the card shows the single line All diagnostics
    passed instead of an empty list. *)
Theorem topIssues_in_card_order :
  (forall cards : list DiagCardModel.t,
     let issues := filter (λ d, DiagCardModel.status d ≠ success) cards in
     exists shown : list DiagCardModel.t,
       topIssues cards = issueText <$> shown /\
       shown `prefix_of` issues /\
       shown `sublist_of` cards /\
       length shown = Nat.min 3 (length issues) /\
       Forall (λ d, DiagCardModel.status d ≠ success) shown) /\
  (forall s : Snapshot.t, DiagCardModel.id <$> diagCards s = required) /\
  (forall cards : list DiagCardModel.t,
     Forall (λ d, DiagCardModel.status d = success) cards ->
     topIssues cards = [] /\ issueLines cards = ["• All diagnostics passed."]) /\
  (forall cards : list DiagCardModel.t,
     ~ Forall (λ d, DiagCardModel.status d = success) cards ->
     topIssues cards ≠ [] /\
     issueLines cards = (λ n, "• " ++ n)%string <$> topIssues cards) /\
  topIssues (diagCards five_issues) =
    ["Wi‑Fi: Disabled / Optional"; "Satellite: Not Configured"; "Power: Out of range"] /\
  DiagCardModel.status <$> diagCards five_issues =
    [success; warning; success; warning; error; success; success; success; error] /\
  length (topIssues (diagCards one_error_one_warning)) = 2%nat /\
  statusLabel (diagCards one_error_one_warning) = "Needs Attention" /\
  issueLines (diagCards all_good) = ["• All diagnostics passed."] /\
  statusLabel (diagCards all_good) = "Excellent".
Proof.
  split; [|split; [|split; [|split; [|by vm_compute]]]].
  - intros cards issues. exists (take 3 issues). repeat split.
    + apply prefix_take.
    + etrans; [apply sublist_take|apply sublist_filter].
    + apply length_take.
    + apply Forall_take, Forall_forall. intros d Hd.
      by apply list_elem_of_filter in Hd as [Hd _].
  - done.
  - intros cards Hall. apply filter_issues_nil in Hall.
    unfold issueLines, topIssues. by rewrite Hall.
  - intros cards Hnot. rewrite <- filter_issues_nil in Hnot.
    unfold issueLines, topIssues.
    destruct (filter _ cards) as [|d issues]; [done|]. simpl. done.
Qed.

Lemma topIssues_in_card_order_witness :
  topIssues (diagCards all_good) = [] /\
  topIssues (diagCards one_error_one_warning) ≠ [].
Proof.
  destruct topIssues_in_card_order as (_ & _ & Hall & Hnot & _).
  split.
  - apply Hall. apply all_success_iff. split; no_card.
  - apply Hnot. intros [He _]%all_success_iff. apply He. card_at 4%nat.
Defined.

(** *** Rulebook *)

Lemma RULEBOOK_ids : RuleEntry.id <$> RULEBOOK = required.
Proof. reflexivity. Qed.

Lemma RULEBOOK_find_Some (id : string) (r : RuleEntry.t) :
  RULEBOOK_find id = Some r -> r ∈ RULEBOOK /\ RuleEntry.id r = id.
Proof.
  intros H. apply find_some in H as [Hin Hid]. split.
  - by apply list_elem_of_In.
  - by apply bool_decide_eq_true in Hid.
Qed.

Lemma RULEBOOK_find_required (id : string) :
  id ∈ required -> exists r, RULEBOOK_find id = Some r.
Proof.
  unfold required. intros H.
  repeat (apply elem_of_cons in H as [->|H]; [by eexists|]).
  by apply elem_of_nil in H.
Qed.

Lemma RULEBOOK_find_other (id : string) : id ∉ required -> RULEBOOK_find id = None.
Proof.
  intros Hout. destruct (RULEBOOK_find id) as [r|] eqn:E; [|done].
  apply RULEBOOK_find_Some in E as [Hin <-].
  exfalso. apply Hout. rewrite <- RULEBOOK_ids. by apply list_elem_of_fmap_2.
Qed.

(** C4, as the source has it. The rulebook holds one entry for each of the
    nine subsystem ids and nothing else.  Searching it by id finds the
    entry of that id exactly for those nine ids and finds nothing for any
    other id; the entry that the modal then shows is the one found or, when
    nothing is found, the first entry of the rulebook (Ethernet), so the
    modal always has an entry to show. *)
Theorem rulebook_lookup :
  RuleEntry.id <$> RULEBOOK = required /\
  (forall id : string, id ∈ required ->
     exists r, RULEBOOK_find id = Some r /\ r ∈ RULEBOOK /\ RuleEntry.id r = id /\
               selected id = Some r) /\
  (forall id : string, id ∉ required ->
     RULEBOOK_find id = None /\
     selected id = RULEBOOK !! 0%nat /\
     RuleEntry.id <$> selected id = Some "ethernet") /\
  (forall id : string, is_Some (RULEBOOK_find id) <-> id ∈ required) /\
  (forall id : string, is_Some (selected id)).
Proof.
  split; [done|]. split; [|split; [|split]].
  - intros id Hin. destruct (RULEBOOK_find_required id Hin) as [r Hr].
    exists r. destruct (RULEBOOK_find_Some id r Hr) as [? ?].
    unfold selected. by rewrite Hr.
  - intros id Hout. apply RULEBOOK_find_other in Hout.
    unfold selected. by rewrite Hout.
  - intros id. split.
    + intros [r Hr]. apply RULEBOOK_find_Some in Hr as [Hin <-].
      rewrite <- RULEBOOK_ids. by apply list_elem_of_fmap_2.
    + intros Hin. destruct (RULEBOOK_find_required id Hin) as [r Hr]. by exists r.
  - intros id. unfold selected. by destruct (RULEBOOK_find id).
Qed.

Lemma not_required_sprinkler : "sprinkler" ∉ required.
Proof.
  unfold required. intros H.
  repeat (apply elem_of_cons in H as [?|H]; [done|]).
  by apply elem_of_nil in H.
Qed.

Lemma rulebook_lookup_witness :
  RuleEntry.title <$> selected "cloud" = Some "Cloud Sync" /\
  RULEBOOK_find "sprinkler" = None.
Proof.
  destruct rulebook_lookup as (_ & Hin & Hout & _).
  split.
  - destruct (Hin "cloud") as (r & Hr & _ & _ & ->).
    + unfold required. do 7 apply list_elem_of_further. apply list_elem_of_here.
    + injection Hr as <-. reflexivity.
  - apply Hout, not_required_sprinkler.
Defined.

(** C4, as the spec has it, fails: for an id outside the nine the lookup
    of the modal does not report a missing entry, it returns the Ethernet
    entry. *)
Lemma selected_unknown_id_is_ethernet :
  ("sprinkler" ∉ required) /\
  (selected "sprinkler" ≠ None) /\
  RuleEntry.id <$> selected "sprinkler" = Some "ethernet".
Proof. split; [apply not_required_sprinkler|]. by split. Qed.

(** * Further properties of the source *)

(** *** The other status rules *)

(** X1. Cellular: with finite packet loss and strength the status is
    success exactly when the internet is online, the loss is at most 2 and
    the strength at least 40; it is error exactly when the internet is not
    online, whatever the numbers; a loss or a strength that is NaN, with
    the internet online, gives a warning. *)
Theorem cellStatus_classification :
  (forall (reach : Reachability) (l s : Q),
     (cellStatus reach (Js.Finite l) (Js.Finite s) = success <->
        reach = online /\ (l <= 2)%Q /\ (40 <= s)%Q) /\
     (cellStatus reach (Js.Finite l) (Js.Finite s) = warning <->
        reach = online /\ ((2 < l)%Q \/ (s < 40)%Q))) /\
  (forall (reach : Reachability) (loss strength : Js.number),
     cellStatus reach loss strength = error <-> reach ≠ online) /\
  (forall strength : Js.number, cellStatus online Js.NaN strength = warning) /\
  (forall loss : Js.number, cellStatus online loss Js.NaN = warning).
Proof.
  split; [|split; [|split]].
  - intros reach l s. unfold cellStatus, Js.ge, Js.le, Js.of_Z.
    change (inject_Z 2) with 2%Q. change (inject_Z 40) with 40%Q.
    destruct reach; repeat case_bool_decide; try congruence; js_cmp;
      intuition (try congruence; try lra).
  - intros reach loss strength. unfold cellStatus.
    destruct reach; repeat case_bool_decide; try done;
      destruct (Js.le loss _), (Js.ge strength _); simpl; by split.
  - intros strength. by destruct strength.
  - intros loss. unfold cellStatus. simpl.
    by destruct (Js.le loss _), loss.
Qed.

(** X2. Pressure: the manifold and the source readings are judged by the
    same rule: success exactly on [30, 80], warning exactly on [20, 30),
    error on every other input, NaN included.  A reading above 80 is an
    error like one below 20, and both cards show Low for every error. *)
Theorem pressure_classification :
  (forall p : Js.number,
     sourceStatus p = manifoldStatus p /\
     (manifoldStatus p = success <->
        exists q, p = Js.Finite q /\ (30 <= q)%Q /\ (q <= 80)%Q) /\
     (manifoldStatus p = warning <->
        exists q, p = Js.Finite q /\ (20 <= q)%Q /\ (q < 30)%Q) /\
     (manifoldStatus p = error <->
        ~ (exists q, p = Js.Finite q /\ (20 <= q)%Q /\ (q <= 80)%Q))) /\
  (forall q : Q, (80 < q)%Q -> manifoldStatus (Js.Finite q) = error) /\
  (forall s : Snapshot.t,
     exists dm ds,
       diagCards s !! 5%nat = Some dm /\ diagCards s !! 6%nat = Some ds /\
       DiagCardModel.status dm = manifoldStatus (Snapshot.manifoldPsi s) /\
       DiagCardModel.status ds = sourceStatus (Snapshot.sourcePsi s) /\
       (DiagCardModel.status dm = error -> DiagCardModel.summaryPrimary dm = "Low") /\
       (DiagCardModel.status ds = error -> DiagCardModel.summaryPrimary ds = "Low")).
Proof.
  split; [|split].
  - intros p. split; [done|]. destruct p as [| | |q].
    1-3: by (repeat split; try done; try (intros (q & ? & _); done);
             try (intros _ (q & ? & _); done)).
    unfold manifoldStatus, Js.ge, Js.le, Js.lt, Js.of_Z.
    change (inject_Z 30) with 30%Q. change (inject_Z 80) with 80%Q.
    change (inject_Z 20) with 20%Q.
    js_cmp; repeat split; try done.
    all: try (intros _; exists q; split; [done|]; lra).
    all: try (intros (q' & [= <-] & H); lra).
    all: try (intros _ (q' & [= <-] & H); lra).
    all: try (intros H; exfalso; apply H; exists q; split; [done|]; lra).
  - intros q Hq. unfold manifoldStatus, Js.ge, Js.le, Js.lt, Js.of_Z.
    change (inject_Z 30) with 30%Q. change (inject_Z 80) with 80%Q.
    change (inject_Z 20) with 20%Q.
    js_cmp; try done; lra.
  - intros s. do 2 eexists. do 4 (split; [done|]). simpl.
    split; by intros ->.
Qed.

Lemma pressure_classification_witness :
  manifoldStatus (Js.Finite 100) = error /\
  exists d, diagCards (scenario 13%Z true online true sat_ready true false) !! 5%nat = Some d.
Proof.
  destruct pressure_classification as (_ & Hhigh & Hcards).
  split.
  - apply Hhigh. lra.
  - destruct (Hcards (scenario 13%Z true online true sat_ready true false))
      as (dm & _ & H & _). by exists dm.
Defined.

(** X3. Cloud and firmware: an unreachable cloud is an error whatever the
    ping; a reachable one is never an error, a success exactly when the
    ping is at most 250 and a warning above it and when the ping is NaN.
    An unsupported firmware is an error whether or not an update is
    available; a supported one is a warning exactly when an update is
    available. *)
Theorem cloud_firmware_classification :
  (forall ping : Js.number, cloudStatus false ping = error) /\
  (forall ping : Js.number, cloudStatus true ping ≠ error) /\
  (forall q : Q, cloudStatus true (Js.Finite q) = success <-> (q <= 250)%Q) /\
  (forall q : Q, cloudStatus true (Js.Finite q) = warning <-> (250 < q)%Q) /\
  cloudStatus true Js.NaN = warning /\
  (forall upd : bool, firmwareStatus false upd = error) /\
  (forall upd : bool,
     firmwareStatus true upd = (if upd then warning else success)).
Proof.
  split; [done|]. split; [|split; [|split; [|done]]].
  - intros ping. unfold cloudStatus. by destruct (Js.le ping _).
  - intros q. unfold cloudStatus, Js.le, Js.of_Z. change (inject_Z 250) with 250%Q.
    js_cmp; intuition (try congruence; try lra).
  - intros q. unfold cloudStatus, Js.le, Js.of_Z. change (inject_Z 250) with 250%Q.
    js_cmp; intuition (try congruence; try lra).
Qed.

(** X4. Wi-Fi: the status is success exactly when the internet is online
    and the interface is provisioned or powered and connected; error
    exactly when it is not provisioned, powered and not connected; warning
    otherwise.  A provisioned interface and a powered-off one are never in
    error, and a provisioning flag with a null or empty SSID does not count
    as provisioned. *)
Theorem wifiStatus_classification :
  (forall (prov : bool) (reach : Reachability) (powered connected : bool),
     let st := wifiStatus prov reach powered connected in
     (st = success <->
        reach = online /\ (prov = true \/ (powered = true /\ connected = true))) /\
     (st = error <-> prov = false /\ powered = true /\ connected = false) /\
     (st = warning <->
        (reach ≠ online /\ (prov = true \/ connected = true)) \/
        (prov = false /\ powered = false))) /\
  (forall flag : bool,
     wifiProvisioned flag None = false /\ wifiProvisioned flag (Some "") = false) /\
  (forall (flag : bool) (ssid : string),
     wifiProvisioned flag (Some ssid) = true <-> flag = true /\ ssid ≠ "").
Proof.
  split; [|split].
  - intros prov reach powered connected st. subst st. unfold wifiStatus.
    destruct prov, reach, powered, connected; simpl;
      repeat case_bool_decide; intuition congruence.
  - intros flag. by destruct flag.
  - intros flag ssid. unfold wifiProvisioned.
    destruct flag; simpl; try case_bool_decide; simpl; intuition congruence.
Qed.

(** *** Cards, remediation and rulebook *)

Ltac each_card Hd :=
  unfold diagCards in Hd; cbv zeta in Hd;
  repeat (apply elem_of_cons in Hd as [->|Hd]);
  [..|by apply elem_of_nil in Hd]; simpl.

(** X5. Remediation: of the nine cards only the Wi-Fi card ever carries a
    remediation block, and it carries one exactly when its status is not
    success.  The first action of every block leads to the network setup;
    the rulebook action is offered exactly when the status is error. *)
Theorem remediation_only_on_wifi (s : Snapshot.t) (d : DiagCardModel.t) :
  d ∈ diagCards s ->
  (is_Some (DiagCardModel.remediation d) <->
     DiagCardModel.id d = "wifi" /\ DiagCardModel.status d ≠ success) /\
  (forall r : Remediation, DiagCardModel.remediation d = Some r ->
     (exists a rest, actions r = a :: rest /\ kind a = goToNetwork) /\
     (openCheatSheet ∈ kind <$> actions r <-> DiagCardModel.status d = error) /\
     rem_title r =
       (if bool_decide (DiagCardModel.status d = error)
        then "Action Required" else "Optional")).
Proof.
  intros Hd. each_card Hd.
  2: { destruct (wifiStatus _ _ _ _); simpl.
       - split; [split; [by intros [? ?]|by intros [_ ?]]|done].
       - split; [split; [done|by eexists]|].
         intros r [= <-]. simpl. split; [by eexists _, _|]. split; [|done].
         split; [|done]. intros H. apply list_elem_of_singleton in H. done.
       - split; [split; [done|by eexists]|].
         intros r [= <-]. simpl. split; [by eexists _, _|]. split; [|done].
         split; [done|]. intros _. apply list_elem_of_further, list_elem_of_here. }
  all: split; [split; [by intros [? ?]|by intros [? _]]|done].
Qed.

Lemma remediation_only_on_wifi_witness :
  exists d, diagCards five_issues !! 1%nat = Some d /\
            is_Some (DiagCardModel.remediation d).
Proof.
  assert (exists d, diagCards five_issues !! 1%nat = Some d) as [d Hd] by (by eexists).
  exists d. split; [done|].
  assert (d ∈ diagCards five_issues) as Hin by (by apply (list_elem_of_lookup_2 _ 1%nat)).
  apply (proj1 (remediation_only_on_wifi five_issues d Hin)).
  injection Hd as <-. by split.
Defined.

(** X6. Cards and rulebook entries correspond one to one: for every
    snapshot the nine cards have, in order, the ids and the titles of the
    nine rulebook entries, no id occurs twice, and looking up the id of a
    card finds the entry of the same title without using the fallback. *)
Theorem cards_match_rulebook (s : Snapshot.t) :
  (λ d, (DiagCardModel.id d, DiagCardModel.title d)) <$> diagCards s =
    (λ r, (RuleEntry.id r, RuleEntry.title r)) <$> RULEBOOK /\
  length (diagCards s) = 9%nat /\
  NoDup (DiagCardModel.id <$> diagCards s) /\
  (forall d : DiagCardModel.t, d ∈ diagCards s ->
     exists r, RULEBOOK_find (DiagCardModel.id d) = Some r /\
               selected (DiagCardModel.id d) = Some r /\
               RuleEntry.id r = DiagCardModel.id d /\
               RuleEntry.title r = DiagCardModel.title d).
Proof.
  split; [done|]. split; [done|]. split.
  - change (DiagCardModel.id <$> diagCards s) with required.
    by apply (bool_decide_unpack _).
  - intros d Hd. each_card Hd; by eexists.
Qed.

Lemma worstStatus_alt (cards : list DiagCardModel.t) :
  worstStatus cards =
    if hasError cards then error else if hasWarning cards then warning else success.
Proof.
  unfold hasError, hasWarning.
  induction cards as [|d cards IH]; [done|].
  simpl. rewrite IH. clear IH.
  destruct (DiagCardModel.status d);
    destruct (existsb _ cards); destruct (existsb _ cards); by simpl.
Qed.

(** X7. The overview card follows the most severe status among the cards:
    that status is the status of one of the cards (success when there is
    none), no card is more severe, the dot of the overview is the dot that
    a card of that status gets, and label, background and border are the
    ones of that status. *)
Theorem overview_follows_worst_status (cards : list DiagCardModel.t) :
  let w := worstStatus cards in
  (w = success \/ any_status w cards) /\
  (forall d, d ∈ cards -> (severity (DiagCardModel.status d) <= severity w)%nat) /\
  statusDot cards = Theme.dot (themeForStatus w) /\
  statusLabel cards =
    match w with
    | error => "Needs Attention"
    | warning => "Good (with advisories)"
    | success => "Excellent"
    end /\
  (statusBg cards, statusBorder cards) =
    match w with
    | error => ("bg-red-50", "border-red-200")
    | warning => ("bg-orange-50", "border-orange-200")
    | success => ("bg-green-50", "border-green-200")
    end.
Proof.
  intros w. subst w. rewrite worstStatus_alt.
  unfold statusDot, statusLabel, statusBg, statusBorder.
  destruct (hasError_spec cards) as [He|He], (hasWarning_spec cards) as [Hw|Hw];
    (split; [by auto|]); (split; [|done]); intros d Hd; simpl;
    destruct (DiagCardModel.status d) eqn:Hst; simpl; try lia.
  all: exfalso; (apply He + apply Hw); by exists d.
Qed.

Lemma cards_match_rulebook_witness :
  exists r, RULEBOOK_find "manifold" = Some r /\ RuleEntry.title r = "Manifold Pressure".
Proof.
  destruct (cards_match_rulebook all_good) as (_ & _ & _ & H).
  assert (exists d, diagCards all_good !! 5%nat = Some d) as [d Hd] by (by eexists).
  destruct (H d) as (r & Hr & _ & _ & Ht).
  - by apply (list_elem_of_lookup_2 _ 5%nat).
  - injection Hd as <-. by exists r.
Defined.

Lemma overview_follows_worst_status_witness :
  exists d, diagCards five_issues !! 1%nat = Some d /\
    (severity (DiagCardModel.status d) <=
     severity (worstStatus (diagCards five_issues)))%nat.
Proof.
  assert (exists d, diagCards five_issues !! 1%nat = Some d) as [d Hd] by (by eexists).
  exists d. split; [done|].
  apply (overview_follows_worst_status (diagCards five_issues)).
  by apply (list_elem_of_lookup_2 _ 1%nat).
Defined.

(** *** Glyph, strength text and channel *)

Lemma filledOf_range (q : Q) : (0 <= filledOf q <= 5)%Z.
Proof. unfold filledOf. lia. Qed.

Lemma filledOf_mono (q r : Q) : (q <= r)%Q -> (filledOf q <= filledOf r)%Z.
Proof.
  intros H. apply round_mono in H. unfold filledOf.
  assert ((Z.max 0 (Z.min 100 (Js.round q)) + 10) / 20 <=
          (Z.max 0 (Z.min 100 (Js.round r)) + 10) / 20)%Z; [|lia].
  apply Z.div_le_mono; lia.
Qed.

Lemma five_segments_inj (k k' : nat) :
  (k <= 5)%nat -> (k' <= 5)%nat -> five_segments k = five_segments k' -> k = k'.
Proof.
  intros Hk Hk'.
  do 6 (destruct k as [|k]; [do 6 (destruct k' as [|k']; [by vm_compute|]); lia|]).
  lia.
Qed.

(** X8. The glyph never shows fewer filled segments for a larger
    percentage, and two glyphs are equal only when they fill the same
    number of segments. *)
Theorem wifiStrengthGlyph_monotone (q r : Q) :
  (q <= r)%Q ->
  exists k k' : nat,
    (k <= k' <= 5)%nat /\
    wifiStrengthGlyph (Some (Js.Finite q)) = Some (five_segments k) /\
    wifiStrengthGlyph (Some (Js.Finite r)) = Some (five_segments k') /\
    (wifiStrengthGlyph (Some (Js.Finite q)) = wifiStrengthGlyph (Some (Js.Finite r)) ->
     k = k').
Proof.
  intros H. exists (Z.to_nat (filledOf q)), (Z.to_nat (filledOf r)).
  pose proof (filledOf_range q). pose proof (filledOf_range r).
  pose proof (filledOf_mono q r H).
  rewrite !wifiStrengthGlyph_Finite. fold (filledOf q). fold (filledOf r).
  repeat split; try lia.
  intros [= Heq]. apply five_segments_inj in Heq; lia.
Qed.

Lemma wifiStrengthGlyph_monotone_witness :
  exists k k' : nat,
    (k <= k' <= 5)%nat /\
    wifiStrengthGlyph (Some (Js.Finite 29)) = Some (five_segments k) /\
    wifiStrengthGlyph (Some (Js.Finite 30)) = Some (five_segments k').
Proof.
  destruct (wifiStrengthGlyph_monotone 29 30) as (k & k' & H1 & H2 & H3 & _); [lra|].
  by exists k, k'.
Defined.

(** X9. The strength word and the glyph agree: without a label from
    wifi-check, a percentage of at least 75 reads strong and fills four or
    five segments, one in [50, 75) reads good and fills three or four, one
    in [25, 50) reads weak and fills one to three, and one below 25 reads
    poor and fills at most one.  A label from wifi-check replaces the word
    whatever the percentage. *)
Theorem wifiStrengthText_agrees_with_glyph :
  (forall q : Q,
     exists k : nat,
       wifiStrengthGlyph (Some (Js.Finite q)) = Some (five_segments k) /\
       ((75 <= q)%Q ->
          wifiStrengthText None (Some (Js.Finite q)) = Some "strong" /\ (4 <= k <= 5)%nat) /\
       ((50 <= q)%Q -> (q < 75)%Q ->
          wifiStrengthText None (Some (Js.Finite q)) = Some "good" /\ (3 <= k <= 4)%nat) /\
       ((25 <= q)%Q -> (q < 50)%Q ->
          wifiStrengthText None (Some (Js.Finite q)) = Some "weak" /\ (1 <= k <= 3)%nat) /\
       ((q < 25)%Q ->
          wifiStrengthText None (Some (Js.Finite q)) = Some "poor" /\ (k <= 1)%nat)) /\
  (forall (l : string) (p : option Js.number), wifiStrengthText (Some l) p = Some l) /\
  wifiStrengthText None None = None /\
  wifiStrengthText None (Some Js.NaN) = Some "poor".
Proof.
  split; [|done].
  intros q. exists (Z.to_nat (filledOf q)).
  rewrite wifiStrengthGlyph_Finite. fold (filledOf q). split; [done|].
  assert (forall c : Z, (inject_Z c <= q)%Q -> (c <= Js.round q)%Z) as Hlo.
  { intros c Hc. apply round_mono in Hc. by rewrite round_inject_Z in Hc. }
  assert (forall c : Z, (q <= inject_Z c)%Q -> (Js.round q <= c)%Z) as Hhi.
  { intros c Hc. apply round_mono in Hc. by rewrite round_inject_Z in Hc. }
  unfold wifiStrengthText, Js.ge, Js.le, Js.of_Z, filledOf.
  change (inject_Z 75) with 75%Q. change (inject_Z 50) with 50%Q.
  change (inject_Z 25) with 25%Q.
  split; [|split; [|split]].
  - intros H1. pose proof (Hlo 75%Z H1).
    split; [js_cmp; try done; lra|Z.to_euclidean_division_equations; lia].
  - intros H1 H2. pose proof (Hlo 50%Z H1). pose proof (Hhi 75%Z (Qlt_le_weak _ _ H2)).
    split; [js_cmp; try done; lra|Z.to_euclidean_division_equations; lia].
  - intros H1 H2. pose proof (Hlo 25%Z H1). pose proof (Hhi 50%Z (Qlt_le_weak _ _ H2)).
    split; [js_cmp; try done; lra|Z.to_euclidean_division_equations; lia].
  - intros H2. pose proof (Hhi 25%Z (Qlt_le_weak _ _ H2)).
    split; [js_cmp; try done; lra|Z.to_euclidean_division_equations; lia].
Qed.

Lemma wifiStrengthText_agrees_with_glyph_witness :
  wifiStrengthText None (Some (Js.Finite 80)) = Some "strong" /\
  wifiStrengthText None (Some (Js.Finite (249 # 10))) = Some "poor".
Proof.
  destruct wifiStrengthText_agrees_with_glyph as (H & _).
  split.
  - destruct (H 80%Q) as (k & _ & Hs & _). apply Hs. lra.
  - destruct (H (249 # 10)%Q) as (k & _ & _ & _ & _ & Hp). apply Hp. lra.
Defined.

(** X10. Range of the channel: a frequency of the 2.4 GHz band gives a
    channel from 1 to 15 (15 at the upper end, 2484 MHz), one of the 5 GHz
    band a channel from 0 to 180 (0 at 5000 MHz), and inside a band a
    higher frequency never gives a lower channel. *)
Theorem wifiChannel_ranges :
  (forall q : Q, (2412 <= q)%Q -> (q <= 2484)%Q ->
     exists ch : Z,
       wifiChannelFromFreqMHz (Some (Js.Finite q)) = Some (Js.String_of_int ch) /\
       (1 <= ch <= 15)%Z) /\
  (forall q : Q, (5000 <= q)%Q -> (q <= 5900)%Q ->
     exists ch : Z,
       wifiChannelFromFreqMHz (Some (Js.Finite q)) = Some (Js.String_of_int ch) /\
       (0 <= ch <= 180)%Z) /\
  (forall q r : Q,
     ((2412 <= q)%Q /\ (r <= 2484)%Q) \/ ((5000 <= q)%Q /\ (r <= 5900)%Q) ->
     (q <= r)%Q ->
     exists ch ch' : Z,
       wifiChannelFromFreqMHz (Some (Js.Finite q)) = Some (Js.String_of_int ch) /\
       wifiChannelFromFreqMHz (Some (Js.Finite r)) = Some (Js.String_of_int ch') /\
       (ch <= ch')%Z) /\
  wifiChannelFromFreqMHz (Some (Js.of_Z 2484)) = Some "15" /\
  wifiChannelFromFreqMHz (Some (Js.of_Z 5000)) = Some "0".
Proof.
  split; [|split; [|split; [|by vm_compute]]].
  - intros q Hlo Hhi. exists (Js.round ((q - 2407) / 5)). split.
    + rewrite wifiChannel_Finite. js_cmp; try done; lra.
    + assert (inject_Z 1 <= (q - 2407) / 5)%Q as H1
        by (change (inject_Z 1) with 1%Q; unfold Qdiv; change (/ 5)%Q with (1 # 5)%Q; lra).
      assert ((q - 2407) / 5 <= 77 # 5)%Q as H2
        by (unfold Qdiv; change (/ 5)%Q with (1 # 5)%Q; lra).
      apply round_mono in H1, H2. rewrite round_inject_Z in H1.
      change (Js.round (77 # 5)) with 15%Z in H2. lia.
  - intros q Hlo Hhi. exists (Js.round ((q - 5000) / 5)). split.
    + rewrite wifiChannel_Finite. js_cmp; try done; lra.
    + assert (inject_Z 0 <= (q - 5000) / 5)%Q as H1
        by (change (inject_Z 0) with 0%Q; unfold Qdiv; change (/ 5)%Q with (1 # 5)%Q; lra).
      assert ((q - 5000) / 5 <= inject_Z 180)%Q as H2
        by (change (inject_Z 180) with 180%Q; unfold Qdiv; change (/ 5)%Q with (1 # 5)%Q; lra).
      apply round_mono in H1, H2. rewrite !round_inject_Z in *. lia.
  - intros q r [[Hlo Hhi]|[Hlo Hhi]] Hqr.
    + exists (Js.round ((q - 2407) / 5)), (Js.round ((r - 2407) / 5)).
      rewrite !wifiChannel_Finite. split; [js_cmp; try done; lra|].
      split; [js_cmp; try done; lra|]. apply round_mono.
      unfold Qdiv; change (/ 5)%Q with (1 # 5)%Q; lra.
    + exists (Js.round ((q - 5000) / 5)), (Js.round ((r - 5000) / 5)).
      rewrite !wifiChannel_Finite. split; [js_cmp; try done; lra|].
      split; [js_cmp; try done; lra|]. apply round_mono.
      unfold Qdiv; change (/ 5)%Q with (1 # 5)%Q; lra.
Qed.

Lemma wifiChannel_ranges_witness :
  exists ch : Z,
    wifiChannelFromFreqMHz (Some (Js.Finite 2462)) = Some (Js.String_of_int ch) /\
    (1 <= ch <= 15)%Z.
Proof.
  destruct wifiChannel_ranges as (H & _). apply H; lra.
Defined.

(** *** The state of the component *)

Section StateFacts.

Lemma zone_map_ids (f : Zone.t -> Zone.t) (zs : list Zone.t) :
  (forall z, Zone.id (f z) = Zone.id z) -> Zone.id <$> (f <$> zs) = Zone.id <$> zs.
Proof.
  intros Hf. rewrite <- list_fmap_compose. apply list_fmap_ext.
  intros i z _. apply Hf.
Qed.

Lemma random_serial (random : Q) :
  (0 <= random)%Q -> (random < 1)%Q -> (0 <= Qfloor (random * 10000) <= 9999)%Z.
Proof.
  intros H0 H1. split.
  - change 0%Z with (Qfloor 0). apply Qfloor_resp_le. lra.
  - pose proof (Qfloor_le (random * 10000)) as Hle.
    assert (inject_Z (Qfloor (random * 10000)) < inject_Z 10000)%Q as Hlt
      by (change (inject_Z 10000) with 10000%Q; lra).
    rewrite <- Zlt_Qlt in Hlt. lia.
Qed.

Lemma initialState_consistent (today : string) : Consistent (initialState today).
Proof.
  constructor; simpl; try done.
  - apply list_elem_of_here.
Qed.

Lemma handle_consistent (s : AppState.t) (e : Event) :
  Consistent s -> offered s e -> Consistent (handle e s).
Proof.
  intros [H1 H2 H3 H4 H5 H6 H7 H8 H9] Hoff.
  destruct e; simpl in Hoff; constructor; simpl; try done.
  all: try (unfold onRemediation, goToStep; repeat case_bool_decide; simpl; done).
  - change (Z.of_nat (length STEPS)) with 6%Z in H1. change (Z.of_nat 6) with 6%Z. lia.
  - change (Z.of_nat (length STEPS)) with 6%Z in H1. change (Z.of_nat 6) with 6%Z. lia.
  - change (length STEPS) with 6%nat in Hoff. lia.
  - do 2 (split; [done|]). destruct Hoff as [Ha Hb].
    exists (Qfloor (random * 10000)). split; [|reflexivity].
    apply random_serial; [exact Ha|exact Hb].
  - rewrite length_fmap, zone_map_ids; [exact H6|].
    intros z. destruct (bool_decide (Zone.id z = id)); reflexivity.
  - by destruct (AppState.zones s).
  - rewrite length_fmap, zone_map_ids; [exact H6|].
    intros z. destruct (bool_decide (Zone.id z = id)); reflexivity.
  - by destruct (AppState.zones s).
  - rewrite fmap_app, length_app, H6. simpl.
    rewrite Nat.add_1_r, seq_S, fmap_app. simpl. do 3 f_equal. lia.
  - by destruct (AppState.zones s).
  - apply list_elem_of_here.
Qed.

Lemma reachable_consistent (today : string) (s : AppState.t) :
  reachable today s -> Consistent s.
Proof.
  induction 1 as [|s e _ IH Hoff].
  - apply initialState_consistent.
  - by apply handle_consistent.
Qed.

End StateFacts.

Section Navigation.

Lemma indexOf_range (l : list string) (x : string) :
  (-1 <= indexOf l x < Z.of_nat (length l))%Z.
Proof.
  induction l as [|y l IH]; simpl; [lia|].
  case_bool_decide; [lia|]. destruct (Z.ltb_spec (indexOf l x) 0); lia.
Qed.

Lemma indexOf_found (l : list string) (x : string) :
  x ∈ l -> (0 <= indexOf l x)%Z /\ index l (indexOf l x) = Some x.
Proof.
  induction l as [|y l IH]; intros Hin; [by apply elem_of_nil in Hin|].
  simpl. case_bool_decide as Hy; [by subst|].
  apply elem_of_cons in Hin as [->|Hin]; [done|].
  destruct (IH Hin) as [H0 Hidx].
  destruct (Z.ltb_spec (indexOf l x) 0) as [|_]; [lia|]. split; [lia|].
  unfold index in *.
  destruct (Z.ltb_spec (indexOf l x + 1) 0) as [|_]; [lia|].
  destruct (Z.ltb_spec (indexOf l x) 0) as [|_]; [lia|].
  replace (Z.to_nat (indexOf l x + 1)) with (S (Z.to_nat (indexOf l x))) by lia.
  exact Hidx.
Qed.

Lemma indexOf_missing (l : list string) (x : string) : x ∉ l -> indexOf l x = (-1)%Z.
Proof.
  induction l as [|y l IH]; intros Hout; [done|].
  simpl. apply not_elem_of_cons in Hout as [Hne Hout].
  case_bool_decide; [congruence|]. rewrite (IH Hout). done.
Qed.

End Navigation.

Lemma reachable_step_range (today : string) (s : AppState.t) :
  reachable today s -> (0 <= AppState.stepIndex s <= 5)%Z.
Proof.
  intros Hr. apply reachable_consistent in Hr as [H _ _ _ _ _ _ _ _].
  change (Z.of_nat (length STEPS)) with 6%Z in H. lia.
Qed.

(** X11. Navigation stays on a step: after any sequence of events the step
    index lies between 0 and 5, so the current step is the element of STEPS
    at that index and the default QR Scan is never needed. *)
Theorem step_always_defined (today : string) (s : AppState.t) :
  reachable today s ->
  (0 <= AppState.stepIndex s <= 5)%Z /\
  index STEPS (AppState.stepIndex s) = Some (step s) /\
  step s ∈ STEPS.
Proof.
  intros Hr. apply reachable_step_range in Hr as H.
  split; [lia|]. unfold step, index.
  destruct (Z.ltb_spec (AppState.stepIndex s) 0) as [|_]; [lia|].
  destruct (STEPS !! Z.to_nat (AppState.stepIndex s)) as [x|] eqn:Hx.
  - split; [done|]. by apply list_elem_of_lookup_2 in Hx.
  - apply lookup_ge_None in Hx. simpl in Hx. lia.
Qed.

Lemma step_always_defined_witness :
  step (handle ClickNext (handle ClickNext (initialState "2026-01-01"))) ∈ STEPS.
Proof.
  apply (step_always_defined "2026-01-01").
  do 2 (apply reachable_handle; [|done]). apply reachable_initial.
Defined.

(** X12. Next and Back: Next moves one step forward and stops at Done,
    Back moves one step backward and stops at QR Scan; neither changes
    anything but the step, so Back undoes Next except at Done and Next
    undoes Back except at QR Scan.  The header Back button is disabled
    exactly on QR Scan. *)
Theorem next_back_inverse (today : string) (s : AppState.t) :
  reachable today s ->
  AppState.stepIndex (next s) = Z.min (AppState.stepIndex s + 1) 5 /\
  AppState.stepIndex (back s) = Z.max (AppState.stepIndex s - 1) 0 /\
  (step s ≠ "Done" -> back (next s) = s) /\
  (step s = "Done" -> next s = s) /\
  (step s ≠ "QR Scan" -> next (back s) = s) /\
  (step s = "QR Scan" -> back s = s) /\
  (backDisabled s = true <-> step s = "QR Scan").
Proof.
  intros Hr. apply reachable_step_range in Hr as Hi.
  unfold step, index, next, back, backDisabled, AppState.setStepIndex.
  destruct s as [i ? ? ? ? ? ? ? ? ? ? ? ? ? ? ? ? ? ? ? ? ?]. simpl in *.
  change (Z.of_nat 6 - 1)%Z with 5%Z.
  assert (i = 0 \/ i = 1 \/ i = 2 \/ i = 3 \/ i = 4 \/ i = 5)%Z
    as [->|[->|[->|[->|[->| ->]]]]] by lia; simpl; by repeat split.
Qed.

Lemma next_back_inverse_witness :
  back (next (initialState "2026-01-01")) = initialState "2026-01-01".
Proof.
  apply (next_back_inverse "2026-01-01" (initialState "2026-01-01")).
  - apply reachable_initial.
  - done.
Defined.

(** X13. [goToStep] lands on its target: for a name of STEPS the step
    after [goToStep] is that name and nothing else changes; for any other
    string the state is left as it is. *)
Theorem goToStep_lands_on_target (target : string) (s : AppState.t) :
  (target ∈ STEPS ->
     step (goToStep target s) = target /\
     goToStep target s = AppState.setStepIndex (indexOf STEPS target) s) /\
  (target ∉ STEPS -> goToStep target s = s).
Proof.
  split.
  - intros Hin. destruct (indexOf_found STEPS target Hin) as [H0 Hidx].
    unfold goToStep. destruct (Z.geb_spec (indexOf STEPS target) 0); [|lia].
    split; [|done].
    change (step (AppState.setStepIndex (indexOf STEPS target) s))
      with (default "QR Scan" (index STEPS (indexOf STEPS target))).
    by rewrite Hidx.
  - intros Hout. unfold goToStep. by rewrite (indexOf_missing _ _ Hout).
Qed.

Lemma goToStep_lands_on_target_witness :
  step (goToStep "Tests" (initialState "2026-01-01")) = "Tests" /\
  goToStep "Review" (initialState "2026-01-01") = initialState "2026-01-01".
Proof.
  split.
  - apply (goToStep_lands_on_target "Tests").
    unfold STEPS. do 4 apply list_elem_of_further. apply list_elem_of_here.
  - apply (goToStep_lands_on_target "Review").
    unfold STEPS. intros H.
    repeat (apply elem_of_cons in H as [?|H]; [done|]). by apply elem_of_nil in H.
Defined.

(** X14. The step circles are not guarded: clicking the circle of a step
    shows that step and leaves the serial as it is, so the Done step can be
    reached while no controller has been scanned, although the Continue
    Setup button of the first step is still disabled; its summary then
    shows a dash for the serial number. *)
Theorem step_circles_bypass_scan (today : string) :
  (forall (s : AppState.t) (i : nat), (i < length STEPS)%nat ->
     STEPS !! i = Some (step (handle (ClickStepCircle i) s)) /\
     AppState.serial (handle (ClickStepCircle i) s) = AppState.serial s) /\
  (exists s : AppState.t,
     reachable today s /\ step s = "Done" /\
     AppState.serial s = None /\ continueSetupDisabled s = true /\
     serialNumberRow s = "—" /\ AppState.matterPaired s = false).
Proof.
  split.
  - intros s i Hi. split; [|done].
    change (length STEPS) with 6%nat in Hi.
    do 6 (destruct i as [|i]; [done|]). lia.
  - exists (handle (ClickStepCircle 5) (initialState today)). split; [|done].
    apply reachable_handle; [apply reachable_initial|]. simpl. lia.
Qed.

Lemma step_circles_bypass_scan_witness :
  STEPS !! 4%nat = Some (step (handle (ClickStepCircle 4) (initialState "2026-01-01"))).
Proof.
  apply (step_circles_bypass_scan "2026-01-01"). simpl. lia.
Defined.



Lemma reachable_selected_listed (today : string) (s : AppState.t) :
  reachable today s ->
  AppState.selectedWifi s ∈ WifiNetwork.ssid <$> wifiNetworks /\
  AppState.selectedWifi s ≠ "".
Proof.
  intros Hr. apply reachable_consistent in Hr as [_ _ Hsel _ _ _ _ _ _].
  assert (AppState.selectedWifi s ∈ WifiNetwork.ssid <$> wifiNetworks) as Hin.
  { apply elem_of_cons in Hsel as [->|Hsel]; [apply list_elem_of_here|done]. }
  split; [done|].
  intros Heq. rewrite Heq in Hin. simpl in Hin.
  repeat (apply elem_of_cons in Hin as [?|Hin]; [done|]). by apply elem_of_nil in Hin.
Qed.

Lemma reachable_wifiProvisioned (today : string) (s : AppState.t) :
  reachable today s ->
  wifiProvisioned (AppState.matterWifiProvisioned s) (AppState.matterProvisionedSsid s) =
    AppState.matterWifiProvisioned s.
Proof.
  intros Hr. destruct (reachable_selected_listed today s Hr) as [_ Hne].
  apply reachable_consistent in Hr as [_ _ _ _ Hprov _ _ _ _].
  unfold wifiProvisioned.
  destruct (AppState.matterWifiProvisioned s); rewrite Hprov; simpl; [|done].
  by rewrite bool_decide_eq_false_2.
Qed.

(** X16. Wi-Fi setup: after any sequence of events the provisioning flag
    is set exactly when a provisioned SSID is recorded, that SSID is the
    selected network, the selected network is one of the three listed
    ones, the pairing-network flag tells whether it is the network of the
    pairing device, and the Wi-Fi row of the Done step shows the selected
    network whether or not it has been provisioned. *)
Theorem wifi_setup_consistent (today : string) (s : AppState.t) :
  reachable today s ->
  (AppState.matterWifiProvisioned s = true <->
     is_Some (AppState.matterProvisionedSsid s)) /\
  (forall ssid : string,
     AppState.matterProvisionedSsid s = Some ssid -> ssid = AppState.selectedWifi s) /\
  AppState.selectedWifi s ∈ WifiNetwork.ssid <$> wifiNetworks /\
  wifiProvisioned (AppState.matterWifiProvisioned s) (AppState.matterProvisionedSsid s) =
    AppState.matterWifiProvisioned s /\
  AppState.usePairingDeviceNetwork s =
    bool_decide (AppState.selectedWifi s = "Southern Cousin") /\
  wifiNetworkRow s = AppState.selectedWifi s.
Proof.
  intros Hr. destruct (reachable_selected_listed today s Hr) as [Hin Hne].
  apply reachable_consistent in Hr as [_ _ Hsel Hflag Hprov _ _ _ _].
  unfold wifiNetworkRow, wifiProvisioned.
  destruct (AppState.matterWifiProvisioned s); rewrite Hprov; simpl.
  - split; [by split; [eexists|]|]. split; [by intros ? [= <-]|].
    split; [done|]. split; [by rewrite bool_decide_eq_false_2|]. by split.
  - split; [by split; [|intros []]|]. split; [done|]. split; [done|].
    split; [done|]. split; [done|]. by rewrite bool_decide_eq_false_2.
Qed.

Lemma wifi_setup_consistent_witness :
  wifiNetworkRow (handle (ClickWifi "Robust Debt") (initialState "2026-01-01")) =
    "Robust Debt".
Proof.
  apply (wifi_setup_consistent "2026-01-01").
  apply reachable_handle; [apply reachable_initial|].
  simpl. do 2 apply list_elem_of_further. apply list_elem_of_here.
Defined.

(** X17. Provisioning and the Wi-Fi card: in a state that events can
    reach, provisioning the selected network, or the current network of
    the pairing device, makes the Wi-Fi card a success when the internet is
    online and a warning otherwise, whatever the radio reports; choosing a
    network afterwards withdraws the provisioning, and the card is judged
    again from the radio alone. *)
Theorem provisioning_drives_wifi_card (today : string) (base : Snapshot.t)
    (s : AppState.t) :
  reachable today s ->
  let reach := Snapshot.wifiInternetReachability base in
  let provisioned_status := if bool_decide (reach = online) then success else warning in
  (exists d, appDiagCards base (provisionSelectedWifi s) !! 1%nat = Some d /\
             DiagCardModel.status d = provisioned_status) /\
  (exists d, appDiagCards base (provisionViaMatterUsingCurrentWifi s) !! 1%nat = Some d /\
             DiagCardModel.status d = provisioned_status) /\
  (forall ssid : string,
     exists d, appDiagCards base (chooseWifi ssid s) !! 1%nat = Some d /\
               DiagCardModel.status d =
                 wifiStatus false reach (Snapshot.wifiTechPowered base)
                   (Snapshot.wifiConnected base)).
Proof.
  intros Hr reach provisioned_status.
  assert (reachable today (provisionSelectedWifi s)) as H1
    by (by apply (reachable_handle today s ClickProvisionSelected)).
  apply reachable_wifiProvisioned in H1.
  split; [|split].
  - eexists. split; [done|]. simpl. simpl in H1. rewrite H1. done.
  - eexists. split; [done|]. done.
  - intros ssid. eexists. split; [done|]. done.
Qed.

Lemma provisioning_drives_wifi_card_witness :
  exists d,
    appDiagCards five_issues
      (provisionSelectedWifi (initialState "2026-01-01")) !! 1%nat = Some d /\
    DiagCardModel.status d = success.
Proof.
  apply (provisioning_drives_wifi_card "2026-01-01" five_issues
           (initialState "2026-01-01")).
  apply reachable_initial.
Defined.

(** *** Zones *)

Section Zones.

Lemma NoDup_positions (n : nat) : NoDup (Z.of_nat <$> seq 1 n).
Proof. apply NoDup_fmap; [apply _|apply NoDup_seq]. Qed.

(** Mapping over a list without duplicate keys changes one position. *)
Lemma map_by_key_single (g : Zone.t -> Zone.t) (zs : list Zone.t) (i : nat) (z : Zone.t) :
  NoDup (Zone.id <$> zs) -> zs !! i = Some z ->
  (λ pz, if bool_decide (Zone.id pz = Zone.id z) then g pz else pz) <$> zs = <[i := g z]> zs.
Proof.
  revert i. induction zs as [|y zs IH]; intros i Hnd Hi; [done|].
  rewrite fmap_cons in Hnd. apply NoDup_cons in Hnd as [Hy Hnd].
  destruct i as [|i]; simpl in *.
  - injection Hi as ->. rewrite bool_decide_eq_true_2 by done. f_equal.
    rewrite <- (list_fmap_id zs) at 2. apply list_fmap_ext. intros j pz Hj. simpl.
    rewrite bool_decide_eq_false_2; [done|]. intros Heq. apply Hy. rewrite <- Heq.
    apply list_elem_of_fmap_2. by apply list_elem_of_lookup_2 in Hj.
  - rewrite bool_decide_eq_false_2.
    + f_equal. by apply IH.
    + intros Heq. apply Hy. rewrite Heq.
      apply list_elem_of_fmap_2. by apply list_elem_of_lookup_2 in Hi.
Qed.

Lemma map_by_missing_key (g : Zone.t -> Zone.t) (zs : list Zone.t) (id : Z) :
  id ∉ Zone.id <$> zs ->
  (λ pz, if bool_decide (Zone.id pz = id) then g pz else pz) <$> zs = zs.
Proof.
  intros Hout. rewrite <- (list_fmap_id zs) at 2. apply list_fmap_ext.
  intros j pz Hj. simpl. rewrite bool_decide_eq_false_2; [done|].
  intros <-. apply Hout, list_elem_of_fmap_2. by apply list_elem_of_lookup_2 in Hj.
Qed.

End Zones.

Lemma reachable_zone_positions (today : string) (s : AppState.t) :
  reachable today s ->
  (forall (i : nat) (z : Zone.t),
     AppState.zones s !! i = Some z -> Zone.id z = (Z.of_nat i + 1)%Z) /\
  NoDup (Zone.id <$> AppState.zones s).
Proof.
  intros Hr. apply reachable_consistent in Hr as [_ _ _ _ _ Hids Hne _ _].
  split.
  - intros i z Hz.
    assert ((Zone.id <$> AppState.zones s) !! i = Some (Zone.id z)) as Hi
      by (by rewrite list_lookup_fmap, Hz).
    rewrite Hids, list_lookup_fmap in Hi.
    destruct (seq 1 (length (AppState.zones s)) !! i) as [k|] eqn:Hk; [|done].
    apply lookup_seq in Hk as [-> _]. injection Hi as <-. lia.
  - rewrite Hids. apply NoDup_positions.
Qed.

(** X18. Zone ids are positions: after any sequence of events there is at
    least one zone, the zone at position i (from 0) has id i + 1, so no id
    occurs twice, and the zone that Add Zone appends gets the next id and
    the name Roof Zone followed by that id. *)
Theorem zone_ids_are_positions (today : string) (s : AppState.t) :
  reachable today s ->
  (1 <= length (AppState.zones s))%nat /\
  (forall (i : nat) (z : Zone.t),
     AppState.zones s !! i = Some z -> Zone.id z = (Z.of_nat i + 1)%Z) /\
  NoDup (Zone.id <$> AppState.zones s) /\
  (exists z, last (AppState.zones (addZone s)) = Some z /\
     Zone.id z = (Z.of_nat (length (AppState.zones s)) + 1)%Z /\
     Zone.id z = Z.of_nat (length (AppState.zones (addZone s))) /\
     Zone.name z = ("Roof Zone " ++ Js.String_of_int (Zone.id z))%string /\
     Zone.id z ∉ Zone.id <$> AppState.zones s).
Proof.
  intros Hr. destruct (reachable_zone_positions today s Hr) as [Hpos Hnd].
  apply reachable_consistent in Hr as [_ _ _ _ _ Hids Hne _ _].
  split; [|split; [done|split; [done|]]].
  - destruct (AppState.zones s); [done|simpl; lia].
  - eexists. split; [apply last_snoc|]. simpl. rewrite length_app. simpl.
    split; [done|]. split; [lia|]. split; [done|].
    intros Hin. apply list_elem_of_fmap in Hin as (z & Hz & Hin).
    apply list_elem_of_lookup in Hin as [i Hi].
    pose proof (lookup_lt_Some _ _ _ Hi). apply Hpos in Hi. lia.
Qed.

Lemma zone_ids_are_positions_witness :
  NoDup (Zone.id <$> AppState.zones
           (handle ClickAddZone (handle ClickAddZone (initialState "2026-01-01")))).
Proof.
  apply (zone_ids_are_positions "2026-01-01").
  do 2 (apply reachable_handle; [|done]). apply reachable_initial.
Defined.

(** X19. Editing a zone changes that zone only: in a state that events can
    reach, changing the type or the name of the zone with a given id
    replaces the zone at position id - 1 and leaves every other zone, all
    ids and the number of zones as they are; for an id that no zone has the
    state does not change. *)
Theorem zone_edit_changes_one_zone (today : string) (s : AppState.t) (id : Z) :
  reachable today s ->
  (id ∈ Zone.id <$> AppState.zones s ->
     exists z, AppState.zones s !! Z.to_nat (id - 1) = Some z /\ Zone.id z = id /\
       (forall v : ZoneType,
          AppState.zones (changeZoneType id v s) =
            <[Z.to_nat (id - 1) := withType v z]> (AppState.zones s)) /\
       (forall v : string,
          AppState.zones (changeZoneName id v s) =
            <[Z.to_nat (id - 1) := withName v z]> (AppState.zones s))) /\
  (id ∉ Zone.id <$> AppState.zones s ->
     (forall v : ZoneType, changeZoneType id v s = s) /\
     (forall v : string, changeZoneName id v s = s)).
Proof.
  intros Hr. destruct (reachable_zone_positions today s Hr) as [Hpos Hnd].
  split.
  - intros Hin. apply list_elem_of_fmap in Hin as (z & -> & Hin).
    apply list_elem_of_lookup in Hin as [i Hi].
    pose proof (Hpos i z Hi) as Hid.
    replace (Z.to_nat (Zone.id z - 1)) with i by lia.
    exists z. split; [done|]. split; [done|].
    split; intros v; simpl.
    + apply (map_by_key_single (withType v)); done.
    + apply (map_by_key_single (withName v)); done.
  - intros Hout. split; intros v.
    + pose proof (map_by_missing_key (withType v) _ _ Hout) as H.
      unfold changeZoneType. unfold withType in H. rewrite H. by destruct s.
    + pose proof (map_by_missing_key (withName v) _ _ Hout) as H.
      unfold changeZoneName. unfold withName in H. rewrite H. by destruct s.
Qed.

Lemma zone_edit_changes_one_zone_witness :
  AppState.zones (changeZoneType 1 Perimeter (addZone (initialState "2026-01-01"))) =
    [ {| Zone.id := 1; Zone.type := Perimeter; Zone.name := "Roof Zone 1" |};
      {| Zone.id := 2; Zone.type := Roof; Zone.name := "Roof Zone 2" |} ] /\
  changeZoneName 7 "Shed" (initialState "2026-01-01") = initialState "2026-01-01".
Proof.
  split.
  - destruct (zone_edit_changes_one_zone "2026-01-01"
                (addZone (initialState "2026-01-01")) 1) as [H _].
    + apply (reachable_handle _ _ ClickAddZone); [apply reachable_initial|done].
    + destruct H as (z & Hz & _ & -> & _); [apply list_elem_of_here|].
      by injection Hz as <-.
  - apply (zone_edit_changes_one_zone "2026-01-01" (initialState "2026-01-01") 7).
    + apply reachable_initial.
    + simpl. intros H. apply list_elem_of_singleton in H. done.
Defined.

(** *** Cards of the application *)

Ltac each_required H :=
  unfold required in H;
  repeat (apply elem_of_cons in H as [->|H]);
  [..|by apply elem_of_nil in H].

(** X20. The cards form an accordion: after any sequence of events at most
    one card is open; clicking an open card closes it, so that no card is
    open, and clicking a closed card leaves exactly that card open. *)
Theorem accordion_one_card_open (today : string) (base : Snapshot.t) (s : AppState.t) :
  reachable today s ->
  (length (openCards base s) <= 1)%nat /\
  (forall id : string, id ∈ required ->
     (cardOpen id s = true -> openCards base (onToggle id s) = []) /\
     (cardOpen id s = false ->
        DiagCardModel.id <$> openCards base (onToggle id s) = [id])).
Proof.
  intros Hr. apply reachable_consistent in Hr as [_ _ _ _ _ _ _ _ Hopen].
  split.
  - unfold openCards, cardOpen.
    destruct (AppState.openDiagId s) as [x|]; [|vm_compute; lia].
    each_required Hopen; vm_compute; lia.
  - intros id Hin. unfold cardOpen, openCards, onToggle. split; intros Hc.
    + apply bool_decide_eq_true in Hc. rewrite bool_decide_eq_true_2 by done.
      by vm_compute.
    + apply bool_decide_eq_false in Hc. rewrite bool_decide_eq_false_2 by done.
      each_required Hin; by vm_compute.
Qed.

Lemma accordion_one_card_open_witness :
  DiagCardModel.id <$>
    openCards five_issues (onToggle "power" (onToggle "wifi" (initialState "2026-01-01")))
  = ["power"].
Proof.
  apply (accordion_one_card_open "2026-01-01" five_issues
           (onToggle "wifi" (initialState "2026-01-01"))).
  - apply (reachable_handle _ _ (ClickCard "wifi")); [apply reachable_initial|].
    simpl. unfold required. apply list_elem_of_further, list_elem_of_here.
  - unfold required. do 4 apply list_elem_of_further. apply list_elem_of_here.
  - done.
Defined.

(** X21. Remediation actions and the rulebook: after any sequence of
    events the focus handed to the rulebook modal is null or the id of a
    card, so the entry the modal opens on is found by its id and the
    fallback is not used; the rulebook action of a card opens the modal on
    the entry of that card without leaving the step, the network action
    leads to the Network step without touching the modal, and the Status
    Rulebook button opens the modal on the Ethernet entry. *)
Theorem rulebook_focus_resolves (today : string) (s : AppState.t) :
  reachable today s ->
  (exists r,
     RULEBOOK_find (initialSelectedId (AppState.rulebookFocus s)) = Some r /\
     selected (initialSelectedId (AppState.rulebookFocus s)) = Some r /\
     RuleEntry.id r = initialSelectedId (AppState.rulebookFocus s)) /\
  (forall id : string, id ∈ required ->
     AppState.rulebookOpen (onRemediation id openCheatSheet s) = true /\
     step (onRemediation id openCheatSheet s) = step s /\
     exists r,
       selected (initialSelectedId
                   (AppState.rulebookFocus (onRemediation id openCheatSheet s))) = Some r /\
       RuleEntry.id r = id) /\
  (forall id : string,
     step (onRemediation id goToNetwork s) = "Network" /\
     AppState.rulebookOpen (onRemediation id goToNetwork s) = AppState.rulebookOpen s /\
     AppState.rulebookFocus (onRemediation id goToNetwork s) = AppState.rulebookFocus s) /\
  RuleEntry.id <$>
    selected (initialSelectedId (AppState.rulebookFocus (openStatusRulebook s)))
  = Some "ethernet".
Proof.
  intros Hr. apply reachable_consistent in Hr as [_ _ _ _ _ _ _ Hfocus _].
  assert (forall id : string, id ∈ required ->
            exists r, RULEBOOK_find id = Some r /\ selected id = Some r /\
                      RuleEntry.id r = id) as Hfound.
  { intros id Hin. destruct (RULEBOOK_find_required id Hin) as [r Hfind].
    exists r. destruct (RULEBOOK_find_Some id r Hfind) as [_ Hid].
    unfold selected. by rewrite Hfind. }
  split; [|split; [|split; [|done]]].
  - destruct (AppState.rulebookFocus s) as [id|]; simpl.
    + by apply Hfound.
    + apply Hfound. apply list_elem_of_here.
  - intros id Hin. split; [done|]. split; [done|].
    destruct (Hfound id Hin) as (r & _ & Hsel & Hid). by exists r.
  - done.
Qed.

Lemma rulebook_focus_resolves_witness :
  exists r,
    selected (initialSelectedId
                (AppState.rulebookFocus
                   (onRemediation "wifi" openCheatSheet (initialState "2026-01-01"))))
      = Some r /\
    RuleEntry.id r = "wifi".
Proof.
  apply (rulebook_focus_resolves "2026-01-01" (initialState "2026-01-01")).
  - apply reachable_initial.
  - unfold required. apply list_elem_of_further, list_elem_of_here.
Defined.

(** X22. In the application the satellite state is derived from the
    backup setting and is never ready.  So whatever the measurements and
    the state of the component, the satellite card is a warning, shown as
    Offline when the backup is enabled and as Not Configured otherwise; the
    overall label is never Excellent, in neither of its two places, and the
    overview always lists at least one issue instead of the line All
    diagnostics passed. *)
Theorem app_is_never_excellent (base : Snapshot.t) (s : AppState.t) :
  (exists d, appDiagCards base s !! 3%nat = Some d /\
     DiagCardModel.id d = "satellite" /\
     DiagCardModel.status d = warning /\
     DiagCardModel.summaryPrimary d =
       (if bool_decide (AppState.satelliteBackup s = Yes)
        then "Offline" else "Not Configured")) /\
  statusLabel (appDiagCards base s) ≠ "Excellent" /\
  doneOverallStatus (appDiagCards base s) ≠ "Excellent" /\
  topIssues (appDiagCards base s) ≠ [] /\
  issueLines (appDiagCards base s) =
    (λ n, "• " ++ n)%string <$> topIssues (appDiagCards base s) /\
  "• All diagnostics passed." ∉ issueLines (appDiagCards base s).
Proof.
  assert (exists d, appDiagCards base s !! 3%nat = Some d /\
            DiagCardModel.id d = "satellite" /\
            DiagCardModel.status d = warning /\
            DiagCardModel.summaryPrimary d =
              (if bool_decide (AppState.satelliteBackup s = Yes)
               then "Offline" else "Not Configured")) as Hsat.
  { eexists. split; [done|]. simpl. by destruct (AppState.satelliteBackup s). }
  split; [done|]. destruct Hsat as (d & Hd & _ & Hst & _).
  assert (any_status warning (appDiagCards base s)) as Hw.
  { exists d. split; [|done]. by apply list_elem_of_lookup_2 in Hd. }
  assert (~ Forall (λ d, DiagCardModel.status d = success) (appDiagCards base s)) as Hnot.
  { intros Hall. apply all_success_iff in Hall as [_ Hall]. by apply Hall. }
  rewrite <- filter_issues_nil in Hnot.
  assert (hasWarning (appDiagCards base s) = true) as Hhw
    by (by destruct (hasWarning_spec (appDiagCards base s))).
  assert (issueLines (appDiagCards base s) =
            (λ n, "• " ++ n)%string <$> topIssues (appDiagCards base s)) as Hlines.
  { unfold issueLines, topIssues. by destruct (filter _ (appDiagCards base s)). }
  split; [|split; [|split; [|split; [done|]]]].
  - unfold statusLabel. rewrite Hhw. by destruct (hasError _).
  - unfold doneOverallStatus. fold (hasError (appDiagCards base s)).
    fold (hasWarning (appDiagCards base s)). rewrite Hhw. by destruct (hasError _).
  - unfold topIssues. by destruct (filter _ (appDiagCards base s)).
  - rewrite Hlines. unfold topIssues.
    intros Hin. apply list_elem_of_fmap in Hin as (n & Hn & Hin).
    apply list_elem_of_fmap in Hin as (c & -> & Hin).
    apply elem_of_take in Hin as (i & Hi & _). apply list_elem_of_lookup_2 in Hi.
    apply list_elem_of_filter in Hi as [_ Hi]. unfold appDiagCards in Hi.
    each_card Hi; by vm_compute in Hn.
Qed.

(** *** Small components *)

(** X23. Signal bars: the lit bars are the first ones, as many as the
    strength clamped to the range from 0 to 5, and the five heights are
    10, 14, 18, 22 and 26 whatever the strength. *)
Theorem SignalBars_lit_prefix (strength : Z) :
  let n := Z.to_nat (Z.max 0 (Z.min 5 strength)) in
  (SignalBars strength).*1 = replicate n true ++ replicate (5 - n) false /\
  (SignalBars strength).*2 = [10; 14; 18; 22; 26]%Z /\
  length (filter (λ b, b.1 = true) (SignalBars strength)) = n.
Proof.
  intros n. subst n. unfold SignalBars. simpl.
  destruct (Z.leb_spec 1 strength), (Z.leb_spec 2 strength), (Z.leb_spec 3 strength),
    (Z.leb_spec 4 strength), (Z.leb_spec 5 strength); try lia.
  - by replace (Z.max 0 (Z.min 5 strength)) with 5%Z by lia.
  - by replace (Z.max 0 (Z.min 5 strength)) with 4%Z by lia.
  - by replace (Z.max 0 (Z.min 5 strength)) with 3%Z by lia.
  - by replace (Z.max 0 (Z.min 5 strength)) with 2%Z by lia.
  - by replace (Z.max 0 (Z.min 5 strength)) with 1%Z by lia.
  - by replace (Z.max 0 (Z.min 5 strength)) with 0%Z by lia.
Qed.

(** X24. Progress circles: after any sequence of events the circles of
    the steps before the current one show a check mark and the others show
    their number, so the number of check marks is the index of the current
    step. *)
Theorem step_circles_count_progress (today : string) (s : AppState.t) :
  reachable today s ->
  (forall i : nat, (i < length STEPS)%nat ->
     (stepCircle i s = "✓" <-> (Z.of_nat i < AppState.stepIndex s)%Z) /\
     ((AppState.stepIndex s <= Z.of_nat i)%Z ->
        stepCircle i s = Js.String_of_int (Z.of_nat i + 1))) /\
  length (filter (λ i, stepCircle i s = "✓") (seq 0 (length STEPS))) =
    Z.to_nat (AppState.stepIndex s).
Proof.
  intros Hr. apply reachable_step_range in Hr as Hi.
  unfold stepCircle. split.
  - intros i Hlt. change (length STEPS) with 6%nat in Hlt.
    destruct (Z.ltb_spec (Z.of_nat i) (AppState.stepIndex s)) as [Hc|Hc].
    + split; [done|lia].
    + split; [|done]. split; [|lia].
      do 6 (destruct i as [|i]; [by vm_compute|]). lia.
  - assert (AppState.stepIndex s = 0 \/ AppState.stepIndex s = 1 \/
            AppState.stepIndex s = 2 \/ AppState.stepIndex s = 3 \/
            AppState.stepIndex s = 4 \/ AppState.stepIndex s = 5)%Z
      as [->|[->|[->|[->|[->| ->]]]]] by lia; by vm_compute.
Qed.

Lemma step_circles_count_progress_witness :
  length (filter (λ i, stepCircle i (next (next (initialState "2026-01-01"))) = "✓")
            (seq 0 (length STEPS))) = 2%nat.
Proof.
  apply (step_circles_count_progress "2026-01-01" (next (next (initialState "2026-01-01")))).
  apply (reachable_handle _ _ ClickNext); [|done].
  apply (reachable_handle _ _ ClickNext); [|done].
  apply reachable_initial.
Defined.

(** X25. The self-test of the source raises no error: the zone, network
    and status checks, the two channel examples, the two glyph examples and
    the search of the rulebook for each required id all pass. *)
Theorem selfTest_passes :
  __selfTest = None /\
  Forall (λ id, is_Some (RULEBOOK_find id)) required.
Proof.
  split; [by vm_compute|].
  apply Forall_forall. intros id Hin. by apply RULEBOOK_find_required.
Qed.

(** X26. The primary interface: Wi-Fi is stored under two different
    strings.  Choosing or provisioning a network stores the string with the
    plain hyphen, which is not the text of any option of the select; the
    select stores the text of its option, which has another hyphen.  After
    any sequence of events the value is one of these four strings. *)
Theorem primaryInterface_values (today : string) (s : AppState.t) :
  reachable today s ->
  AppState.primaryInterface s ∈ ["Ethernet"; "Wi-Fi"; "Wi‑Fi"; "Cellular"] /\
  (forall ssid : string,
     AppState.primaryInterface (chooseWifi ssid s) = "Wi-Fi" /\
     AppState.primaryInterface (chooseWifi ssid s) ∉ primaryInterfaceOptions) /\
  AppState.primaryInterface (provisionViaMatterUsingCurrentWifi s)
    ∉ primaryInterfaceOptions.
Proof.
  assert ("Wi-Fi" ∉ primaryInterfaceOptions) as Hout.
  { unfold primaryInterfaceOptions. intros H.
    repeat (apply elem_of_cons in H as [?|H]; [done|]). by apply elem_of_nil in H. }
  intros Hr. split; [|by split].
  induction Hr as [|s e _ IH Hoff].
  - apply list_elem_of_here.
  - destruct e; simpl; try done.
    + apply list_elem_of_further, list_elem_of_here.
    + simpl in Hoff. unfold primaryInterfaceOptions in Hoff.
      apply elem_of_cons in Hoff as [->|Hoff]; [apply list_elem_of_here|].
      apply elem_of_cons in Hoff as [->|Hoff];
        [do 2 apply list_elem_of_further; apply list_elem_of_here|].
      apply list_elem_of_singleton in Hoff as ->.
      do 3 apply list_elem_of_further. apply list_elem_of_here.
    + apply list_elem_of_further, list_elem_of_here.
    + unfold onRemediation, goToStep. by repeat case_match.
Qed.

Lemma primaryInterface_values_witness :
  AppState.primaryInterface
    (handle (ChangePrimaryInterface "Wi‑Fi") (initialState "2026-01-01"))
  ∈ ["Ethernet"; "Wi-Fi"; "Wi‑Fi"; "Cellular"].
Proof.
  apply (primaryInterface_values "2026-01-01").
  apply reachable_handle; [apply reachable_initial|].
  simpl. unfold primaryInterfaceOptions. apply list_elem_of_further, list_elem_of_here.
Defined.

(** X27. With the demo data set of the source the result does not depend
    on what the installer does: in every state of the component all cards
    but Satellite and Firmware are successes, Wi-Fi included whether or not
    a network has been provisioned, no card carries a remediation, the
    overview reads Good (with advisories), the Done step reads Good, and
    the issues are the satellite one followed by Firmware: Update
    available. *)
Theorem demo_overview_is_fixed (s : AppState.t) :
  let cards := appDiagCards (demo true false None) s in
  DiagCardModel.status <$> cards =
    [success; success; success; warning; success; success; success; success; warning] /\
  Forall (λ d, DiagCardModel.remediation d = None) cards /\
  statusLabel cards = "Good (with advisories)" /\
  doneOverallStatus cards = "Good" /\
  topIssues cards =
    [ if bool_decide (AppState.satelliteBackup s = Yes)
      then "Satellite: Offline" else "Satellite: Not Configured";
      "Firmware: Update available" ] /\
  cards =
    diagCards (demo (bool_decide (AppState.satelliteBackup s = Yes))
                 (AppState.matterWifiProvisioned s) (AppState.matterProvisionedSsid s)).
Proof.
  intros cards. subst cards. unfold appDiagCards.
  assert (appSnapshot (demo true false None) s =
          demo (bool_decide (AppState.satelliteBackup s = Yes))
            (AppState.matterWifiProvisioned s) (AppState.matterProvisionedSsid s)) as ->.
  { unfold appSnapshot, demo. simpl. by destruct (AppState.satelliteBackup s). }
  destruct (AppState.satelliteBackup s),
    (wifiProvisioned (AppState.matterWifiProvisioned s)
       (AppState.matterProvisionedSsid s)) eqn:Hprov.
  all: unfold diagCards, statusLabel, doneOverallStatus, topIssues; simpl;
       rewrite Hprov; simpl.
  all: repeat split; try done.
  all: by repeat constructor.
Qed.
